(** * url_shortener: a shallow embedding of [url_Shortener/url_shortener.py]

    The service keeps two SQLite tables, [urls] and [logs], and offers three
    endpoints: [shorten_url], [redirect_url] and [get_analytics].  The tables
    are modelled as lists of rows in rowid order, the SQL statements as
    functions on those lists, and every endpoint as a function from the
    database (and the values it reads from its environment: the request
    and the clock) to the response and the database it leaves behind.

    Conventions.
    - A Python [str] is a Rocq [string] holding its UTF-8 bytes, so that
      [original_url.encode()] is the identity.
    - A [datetime] is the number of microseconds since 0001-01-01 00:00:00
      (the resolution and the origin of Python's [datetime]).
    - A timestamp written with [strftime "%Y-%m-%d %H:%M:%S"] is represented
      by the number of whole seconds it denotes; [strptime] reads it back
      when its year has four digits and raises ValueError otherwise.
    - [hashlib.md5] is the MD5 function of RFC 1321, written out in [MD5]. *)

From Stdlib Require Import ZArith List String Ascii Bool Lia.
Import ListNotations.
Local Open Scope string_scope.
Local Open Scope list_scope.
Local Open Scope Z_scope.

(** ** hashlib.md5 *)

Module MD5.

Definition mask32 : Z := 0xffffffff.
Definition add32 (x y : Z) : Z := Z.land (x + y) mask32.
Definition not32 (x : Z) : Z := Z.lxor x mask32.
Definition rotl32 (x n : Z) : Z :=
  Z.lor (Z.land (Z.shiftl x n) mask32) (Z.shiftr x (32 - n)).

(** [K i = floor (2^32 * abs (sin (i + 1)))]. *)
Definition K : list Z :=
[ 0xd76aa478; 0xe8c7b756; 0x242070db; 0xc1bdceee; 0xf57c0faf; 0x4787c62a; 0xa8304613; 0xfd469501;
  0x698098d8; 0x8b44f7af; 0xffff5bb1; 0x895cd7be; 0x6b901122; 0xfd987193; 0xa679438e; 0x49b40821;
  0xf61e2562; 0xc040b340; 0x265e5a51; 0xe9b6c7aa; 0xd62f105d; 0x02441453; 0xd8a1e681; 0xe7d3fbc8;
  0x21e1cde6; 0xc33707d6; 0xf4d50d87; 0x455a14ed; 0xa9e3e905; 0xfcefa3f8; 0x676f02d9; 0x8d2a4c8a;
  0xfffa3942; 0x8771f681; 0x6d9d6122; 0xfde5380c; 0xa4beea44; 0x4bdecfa9; 0xf6bb4b60; 0xbebfbc70;
  0x289b7ec6; 0xeaa127fa; 0xd4ef3085; 0x04881d05; 0xd9d4d039; 0xe6db99e5; 0x1fa27cf8; 0xc4ac5665;
  0xf4292244; 0x432aff97; 0xab9423a7; 0xfc93a039; 0x655b59c3; 0x8f0ccc92; 0xffeff47d; 0x85845dd1;
  0x6fa87e4f; 0xfe2ce6e0; 0xa3014314; 0x4e0811a1; 0xf7537e82; 0xbd3af235; 0x2ad7d2bb; 0xeb86d391 ].

(** Per-round rotation amounts. *)
Definition S : list Z :=
[ 7; 12; 17; 22; 7; 12; 17; 22; 7; 12; 17; 22; 7; 12; 17; 22;
  5;  9; 14; 20; 5;  9; 14; 20; 5;  9; 14; 20; 5;  9; 14; 20;
  4; 11; 16; 23; 4; 11; 16; 23; 4; 11; 16; 23; 4; 11; 16; 23;
  6; 10; 15; 21; 6; 10; 15; 21; 6; 10; 15; 21; 6; 10; 15; 21 ].

Definition state : Type := Z * Z * Z * Z.

Definition init : state := (0x67452301, 0xefcdab89, 0x98badcfe, 0x10325476).

(** The message as bytes, padded to a multiple of 64: a 0x80 byte, zeros up
    to 56 modulo 64, then the bit length as a 64-bit little-endian word. *)
Definition bytes_of_string (s : string) : list Z :=
  map (fun c => Z.of_N (N_of_ascii c)) (list_ascii_of_string s).

Definition le_bytes (n : nat) (x : Z) : list Z :=
  map (fun i => Z.land (Z.shiftr x (8 * Z.of_nat i)) 0xff) (seq 0 n).

Definition pad (msg : list Z) : list Z :=
  let len := Z.of_nat (List.length msg) in
  let zeros := Z.to_nat ((55 - len) mod 64) in
  msg ++ [0x80] ++ repeat 0 zeros ++ le_bytes 8 (Z.land (8 * len) 0xffffffffffffffff).

Definition word_of_bytes (bs : list Z) : Z :=
  fold_right (fun b acc => b + 256 * acc) 0 bs.

Fixpoint words (n : nat) (bs : list Z) : list Z :=
  match n with
  | O => []
  | Datatypes.S n' => word_of_bytes (firstn 4 bs) :: words n' (skipn 4 bs)
  end.

Fixpoint chunks (n : nat) (bs : list Z) : list (list Z) :=
  match n with
  | O => []
  | Datatypes.S n' => words 16 (firstn 64 bs) :: chunks n' (skipn 64 bs)
  end.

Definition round (M : list Z) (st : state) (i : nat) : state :=
  let '(A, B, C, D) := st in
  let i' := Z.of_nat i in
  let '(F, g) :=
    if i' <? 16 then (Z.lor (Z.land B C) (Z.land (not32 B) D), i')
    else if i' <? 32 then (Z.lor (Z.land D B) (Z.land (not32 D) C), (5 * i' + 1) mod 16)
    else if i' <? 48 then (Z.lxor (Z.lxor B C) D, (3 * i' + 5) mod 16)
    else (Z.lxor C (Z.lor B (not32 D)), (7 * i') mod 16) in
  let F' := add32 (add32 (add32 F A) (nth i K 0)) (nth (Z.to_nat g) M 0) in
  (D, add32 B (rotl32 F' (nth i S 0)), B, C).

Definition compress (st : state) (M : list Z) : state :=
  let '(a0, b0, c0, d0) := st in
  let '(A, B, C, D) := fold_left (round M) (seq 0 64) st in
  (add32 a0 A, add32 b0 B, add32 c0 C, add32 d0 D).

Definition digest (s : string) : list Z :=
  let bs := pad (bytes_of_string s) in
  let '(a, b, c, d) := fold_left compress (chunks (Nat.div (List.length bs) 64) bs) init in
  le_bytes 4 a ++ le_bytes 4 b ++ le_bytes 4 c ++ le_bytes 4 d.

Definition hex_digit (n : Z) : ascii :=
  if n <? 10 then ascii_of_N (Z.to_N (48 + n)) else ascii_of_N (Z.to_N (87 + n)).

Fixpoint hex (bs : list Z) : string :=
  match bs with
  | [] => ""
  | b :: bs' => String (hex_digit (b / 16)) (String (hex_digit (b mod 16)) (hex bs'))
  end.

Definition hexdigest (s : string) : string := hex (digest s).

End MD5.

(** ** Time *)

Definition datetime : Type := Z.
Definition timestamp : Type := Z.

Definition strftime (t : datetime) : timestamp := t / 1000000.

(** The datetime a stored timestamp denotes. *)
Definition instant (s : timestamp) : datetime := s * 1000000.

(** 1000-01-01 00:00:00 in whole seconds. *)
Definition year_1000 : timestamp := 364877 * 86400.

(** [datetime.strptime(s, "%Y-%m-%d %H:%M:%S")] on a text that [strftime]
    wrote with the same format.  [strftime] does not pad the year, so a year
    below 1000 is written with fewer than four digits ('999-04-15 00:00:00')
    and [%Y] refuses it: [None] is the ValueError. *)
Definition strptime (s : timestamp) : option datetime :=
  if s <? year_1000 then None else Some (instant s).

(** One microsecond past [datetime.max], 9999-12-31 23:59:59.999999. *)
Definition datetime_end : Z := 3652059 * 86400 * 1000000.

(** [timedelta(hours=h)]: refused when the day count leaves +-999999999. *)
Definition timedelta_hours (hours : Z) : option Z :=
  if 999999999 <? Z.abs (hours / 24) then None else Some (hours * 3600 * 1000000).

(** [datetime + timedelta]: refused when the sum leaves years 1..9999. *)
Definition datetime_add (t : datetime) (delta : option Z) : option datetime :=
  match delta with
  | None => None
  | Some d => if (0 <=? t + d) && (t + d <? datetime_end) then Some (t + d) else None
  end.

(** Lines 56-66. *)
Definition is_expired (utcnow : datetime) (expiration_time : timestamp) : option bool :=
  match strptime expiration_time with
  | None => None
  | Some expires => Some (expires <? utcnow)
  end.

(** The stored time reads back and the clock is not past it; reads back
    and the clock is past it. *)
Definition live (utcnow : datetime) (expiration_time : timestamp) : Prop :=
  exists expires, strptime expiration_time = Some expires /\ utcnow <= expires.

Definition past (utcnow : datetime) (expiration_time : timestamp) : Prop :=
  exists expires, strptime expiration_time = Some expires /\ expires < utcnow.

(** ** Tables (lines 11-41) *)

Record url_row : Type := mk_url {
  url_id : Z;
  original_url : string;
  short_url : string;
  creation_time : timestamp;
  expiration_time : timestamp;
  access_count : Z
}.

Record log_row : Type := mk_log {
  log_id : Z;
  log_short_url : string;
  access_time : timestamp;
  ip_address : string
}.

Record database : Type := mk_db {
  urls : list url_row;
  logs : list log_row
}.

(** [CREATE TABLE IF NOT EXISTS]: a missing file gets two empty tables, an
    existing database is left as it is. *)
Definition init_db (file : option database) : database :=
  match file with
  | None => mk_db [] []
  | Some db => db
  end.

(** ** SQL statements *)

(** An [INTEGER PRIMARY KEY] left out of an INSERT gets the largest rowid
    plus one. *)
Definition next_rowid {A : Type} (rowid : A -> Z) (t : list A) : Z :=
  1 + fold_right (fun r m => Z.max (rowid r) m) 0 t.

Definition has_code (code : string) (r : url_row) : bool :=
  String.eqb (short_url r) code.

(** [SELECT ... FROM urls WHERE short_url = ?] followed by [fetchone]. *)
Definition select_url (code : string) (t : list url_row) : option url_row :=
  find (has_code code) t.

(** [INSERT INTO urls (original_url, short_url, creation_time,
    expiration_time)]: [None] is [sqlite3.IntegrityError], raised by the
    UNIQUE constraint on short_url; access_count takes its default. *)
Definition insert_url (t : list url_row) (original short : string)
    (created expires : timestamp) : option (list url_row) :=
  if existsb (has_code short) t then None
  else Some (t ++ [mk_url (next_rowid url_id t) original short created expires 0]).

Definition bump (r : url_row) : url_row :=
  mk_url (url_id r) (original_url r) (short_url r) (creation_time r)
         (expiration_time r) (access_count r + 1).

(** [UPDATE urls SET access_count = access_count + 1 WHERE short_url = ?]. *)
Definition update_access_count (code : string) (t : list url_row) : list url_row :=
  map (fun r => if has_code code r then bump r else r) t.

(** [INSERT INTO logs (short_url, access_time, ip_address)]. *)
Definition insert_log (l : list log_row) (code : string) (at_time : timestamp)
    (ip : string) : list log_row :=
  l ++ [mk_log (next_rowid log_id l) code at_time ip].

Definition log_of (code : string) (e : log_row) : bool :=
  String.eqb (log_short_url e) code.

(** [SELECT access_time, ip_address FROM logs WHERE short_url = ?] followed
    by [fetchall]: the matching rows of a table scan. *)
Definition select_logs (code : string) (l : list log_row) : list (timestamp * string) :=
  map (fun e => (access_time e, ip_address e)) (filter (log_of code) l).

(** ** Endpoints *)

Inductive exception : Type :=
| OverflowError
| OperationalError
| ValueError.

(** What a handler hands back: the dict it returns, the HTTPException it
    raises, or an exception nothing catches. *)
Inductive response (A : Type) : Type :=
| Ok (body : A)
| HTTPException (status_code : Z) (detail : string)
| Uncaught (e : exception).

Arguments Ok {A} body.
Arguments HTTPException {A} status_code detail.
Arguments Uncaught {A} e.

(** Lines 43-54. *)
Definition generate_short_url (original : string) : string :=
  substring 0 6 (MD5.hexdigest original).

Definition short_ly (code : string) : string :=
  String.append "https://short.ly/" code.

(** Lines 79-116.  [utcnow_exp] is the clock read on line 94, [utcnow_ins]
    the one read on line 107.  An IntegrityError is passed over. *)
Definition shorten_url (db : database) (original : string) (expiry_hours : Z)
    (utcnow_exp utcnow_ins : datetime) : response string * database :=
  let short := generate_short_url original in
  match datetime_add utcnow_exp (timedelta_hours expiry_hours) with
  | None => (Uncaught OverflowError, db)
  | Some expiration =>
      let db' :=
        match insert_url (urls db) original short
                (strftime utcnow_ins) (strftime expiration) with
        | Some t => mk_db t (logs db)
        | None => db
        end in
      (Ok (short_ly short), db')
  end.

(** Lines 118-172.  [utcnow_chk] is the clock read by [is_expired] on line
    145, [utcnow_log] the one read on line 156; [logs_up] tells whether the
    INSERT on lines 149-159 goes through or raises: nothing catches it, and
    the connection is dropped without a commit.  Nothing catches the
    ValueError of [is_expired] either; it is raised before any write. *)
Definition redirect_url (db : database) (short : string) (client_host : string)
    (utcnow_chk utcnow_log : datetime) (logs_up : bool)
    : response string * database :=
  match select_url short (urls db) with
  | None => (HTTPException 404 "Short URL not found", db)
  | Some row =>
      match is_expired utcnow_chk (expiration_time row) with
      | None => (Uncaught ValueError, db)
      | Some true => (HTTPException 410 "This URL has expired", db)
      | Some false =>
          if logs_up
          then (Ok (original_url row),
                mk_db (update_access_count short (urls db))
                      (insert_log (logs db) short (strftime utcnow_log) client_host))
          else (Uncaught OperationalError, db)
      end
  end.

Record analytics : Type := mk_analytics {
  a_original_url : string;
  a_short_url : string;
  a_access_count : Z;
  a_expiration_time : timestamp;
  a_logs : list (timestamp * string)
}.

(** Lines 174-212. *)
Definition get_analytics (db : database) (short : string) : response analytics :=
  match select_url short (urls db) with
  | None => HTTPException 404 "Short URL not found"
  | Some row =>
      Ok (mk_analytics (original_url row) (short_ly short) (access_count row)
            (expiration_time row) (select_logs short (logs db)))
  end.

(** The outcomes the specification names. *)
Definition NotFound {A : Type} : response A := HTTPException 404 "Short URL not found".
Definition Expired {A : Type} : response A := HTTPException 410 "This URL has expired".

(** ** Histories of requests *)

Inductive request : Type :=
| PostShorten (original : string) (expiry_hours : Z) (utcnow_exp utcnow_ins : datetime)
| GetRedirect (short : string) (client_host : string) (utcnow_chk utcnow_log : datetime)
    (logs_up : bool)
| GetAnalytics (short : string).

Definition handle (db : database) (rq : request) : database :=
  match rq with
  | PostShorten u h t1 t2 => snd (shorten_url db u h t1 t2)
  | GetRedirect c ip t1 t2 up => snd (redirect_url db c ip t1 t2 up)
  | GetAnalytics _ => db
  end.

Definition run (db : database) (rqs : list request) : database :=
  fold_left handle rqs db.

(** The log entry a request leaves: one for a redirect that answers with the
    original URL, none otherwise. *)
Definition logged (db : database) (rq : request) : list (string * timestamp * string) :=
  match rq with
  | GetRedirect c ip t1 t2 up =>
      match fst (redirect_url db c ip t1 t2 up) with
      | Ok _ => [(c, strftime t2, ip)]
      | _ => []
      end
  | _ => []
  end.

Fixpoint history (db : database) (rqs : list request) : list (string * timestamp * string) :=
  match rqs with
  | [] => []
  | rq :: rqs' => logged db rq ++ history (handle db rq) rqs'
  end.

Definition entry (e : log_row) : string * timestamp * string :=
  (log_short_url e, access_time e, ip_address e).

(** The entries of a history under [code], as an analytics report lists
    them, and their number. *)
Definition visits (code : string) (h : list (string * timestamp * string))
    : list (timestamp * string) :=
  map (fun e => (snd (fst e), snd e))
      (filter (fun e => String.eqb (fst (fst e)) code) h).

Definition resolutions (code : string) (h : list (string * timestamp * string)) : Z :=
  Z.of_nat (List.length (visits code h)).

(** A row after [n] more accesses. *)
Definition hit (n : Z) (r : url_row) : url_row :=
  mk_url (url_id r) (original_url r) (short_url r) (creation_time r)
         (expiration_time r) (access_count r + n).

(** ** Concurrent redirects

    Several [redirect_url] handlers at work on one database, interleaved
    between their SQL statements.  A handler is at one of the points below
    and holds the row it fetched as a local value.

    This is the interleaving with no locks: each statement acts at once on
    the one shared state, and no handler is ever refused.  SQLite lets
    through fewer runs than that (a writer holds the database from its
    INSERT to its commit, and a handler that is locked out raises without
    writing), so what holds here of the tables after every schedule holds of
    the committed tables of every real run.  The states in between are not
    what another connection sees, and nothing is claimed about them. *)

Inductive point : Type :=
| AtSelect
| AtExpiry (row : url_row)
| AtInsertLog (row : url_row)
| AtUpdate (row : url_row)
| Finished (r : response string).

Record handler : Type := mk_handler {
  h_short : string;
  h_client_host : string;
  h_point : point
}.

(** One statement of one handler, at clock reading [utcnow]. *)
Definition advance (db : database) (h : handler) (utcnow : datetime)
    : database * handler :=
  let at_point := mk_handler (h_short h) (h_client_host h) in
  match h_point h with
  | AtSelect =>
      match select_url (h_short h) (urls db) with
      | None => (db, at_point (Finished NotFound))
      | Some row => (db, at_point (AtExpiry row))
      end
  | AtExpiry row =>
      match is_expired utcnow (expiration_time row) with
      | None => (db, at_point (Finished (Uncaught ValueError)))
      | Some true => (db, at_point (Finished Expired))
      | Some false => (db, at_point (AtInsertLog row))
      end
  | AtInsertLog row =>
      (mk_db (urls db)
             (insert_log (logs db) (h_short h) (strftime utcnow) (h_client_host h)),
       at_point (AtUpdate row))
  | AtUpdate row =>
      (mk_db (update_access_count (h_short h) (urls db)) (logs db),
       at_point (Finished (Ok (original_url row))))
  | Finished _ => (db, h)
  end.

(** The scheduler picks handler [i] of the pool. *)
Fixpoint advance_nth (db : database) (pool : list handler) (i : nat)
    (utcnow : datetime) : database * list handler :=
  match pool, i with
  | [], _ => (db, [])
  | h :: pool', O => let '(db', h') := advance db h utcnow in (db', h' :: pool')
  | h :: pool', S i' =>
      let '(db', pool'') := advance_nth db pool' i' utcnow in (db', h :: pool'')
  end.

Definition schedule : Type := list (nat * datetime).

Fixpoint interleave (db : database) (pool : list handler) (sch : schedule)
    : database * list handler :=
  match sch with
  | [] => (db, pool)
  | (i, utcnow) :: sch' =>
      let '(db', pool') := advance_nth db pool i utcnow in
      interleave db' pool' sch'
  end.

Definition resolved (code : string) (h : handler) : bool :=
  match h_point h with
  | Finished (Ok _) => String.eqb (h_short h) code
  | _ => false
  end.

Definition count_resolved (code : string) (pool : list handler) : Z :=
  Z.of_nat (List.length (filter (resolved code) pool)).

Definition arriving (short client_host : string) : handler :=
  mk_handler short client_host AtSelect.

(** ** The UNIQUE constraint on short_url (line 22) *)

Definition unique_codes (db : database) : Prop :=
  NoDup (map short_url (urls db)).

(** ** Worked values *)

(** 2026-01-01 00:00:00, one hour, one second. *)
Definition new_year : datetime := 739616 * 86400 * 1000000.
Definition hour : Z := 3600 * 1000000.
Definition second : Z := 1000000.

Definition page_a : string := "https://example.com/page/3831".
Definition page_b : string := "https://example.com/page/5945".

(** The database after [page_a] was shortened for a day at [new_year]. *)
Definition one_link : database :=
  snd (shorten_url (init_db None) page_a 24 new_year new_year).

(** ** Shapes and invariants *)

Definition is_hex (c : ascii) : bool :=
  existsb (Ascii.eqb c) (list_ascii_of_string "0123456789abcdef").

Definition all_chars (p : ascii -> bool) (s : string) : bool :=
  forallb p (list_ascii_of_string s).

(** The counter of every code agrees with the log: as many entries as
    accesses counted, and no entry under a code without a row. *)
Definition counted (db : database) : Prop :=
  forall code,
    match select_url code (urls db) with
    | Some row => access_count row = Z.of_nat (List.length (select_logs code (logs db)))
    | None => select_logs code (logs db) = []
    end.

(** Rowids 1, 2, 3, ... in table order. *)
Definition numbered {A : Type} (rowid : A -> Z) (t : list A) : Prop :=
  map rowid t = map Z.of_nat (seq 1 (List.length t)).

(** A link due in year 999: [page_a] shortened at [new_year] with
    expiry_hours = -9000000. *)
Definition long_ago_link : database :=
  snd (shorten_url (init_db None) page_a (-9000000) new_year new_year).

(** * Properties *)

(** ** MD5 test vectors (RFC 1321, appendix A.5) *)

Example md5_empty : MD5.hexdigest "" = "d41d8cd98f00b204e9800998ecf8427e".
Proof. vm_compute. reflexivity. Qed.

Example md5_abc : MD5.hexdigest "abc" = "900150983cd24fb0d6963f7d28e17f72".
Proof. vm_compute. reflexivity. Qed.

Example md5_two_blocks :
  MD5.hexdigest
    "12345678901234567890123456789012345678901234567890123456789012345678901234567890"
  = "57edf4a22be3c955ac49da2e2107b67a".
Proof. vm_compute. reflexivity. Qed.

Example one_link_row :
  urls one_link = [mk_url 1 page_a "1f1ff1" 63902822400 63902908800 0].
Proof. vm_compute. reflexivity. Qed.

(** ** Lookups in the urls table *)

Lemma has_code_bump code r : has_code code (bump r) = has_code code r.
Proof. reflexivity. Qed.

Lemma has_code_true code r : has_code code r = true <-> short_url r = code.
Proof. unfold has_code. apply String.eqb_eq. Qed.

Lemma select_url_Some code t r :
  select_url code t = Some r -> In r t /\ short_url r = code.
Proof.
  unfold select_url. intros H. apply find_some in H.
  destruct H as [Hin Hc]. split; [exact Hin | now apply has_code_true].
Qed.

Lemma select_url_None code t :
  select_url code t = None <-> (forall r, In r t -> short_url r <> code).
Proof.
  unfold select_url. split.
  - intros H r Hin Hc. apply (find_none _ _ H) in Hin.
    apply has_code_true in Hc. congruence.
  - intros H. induction t as [|x t IH]; simpl; [reflexivity|].
    destruct (has_code code x) eqn:E.
    + apply has_code_true in E. exfalso. apply (H x); [now left | exact E].
    + apply IH. intros r Hin. apply H. now right.
Qed.

Lemma existsb_select code t :
  existsb (has_code code) t = match select_url code t with Some _ => true | None => false end.
Proof.
  unfold select_url. induction t as [|x t IH]; simpl; [reflexivity|].
  destruct (has_code code x); simpl; [reflexivity | exact IH].
Qed.

Lemma select_url_app code t t' :
  select_url code (t ++ t') =
  match select_url code t with Some r => Some r | None => select_url code t' end.
Proof.
  unfold select_url. induction t as [|x t IH]; simpl; [reflexivity|].
  destruct (has_code code x); [reflexivity | exact IH].
Qed.

Lemma select_url_update code code' t :
  select_url code (update_access_count code' t) =
  option_map (fun r => if has_code code' r then bump r else r) (select_url code t).
Proof.
  unfold select_url, update_access_count.
  induction t as [|x t IH]; simpl; [reflexivity|].
  assert (E : has_code code (if has_code code' x then bump x else x) = has_code code x).
  { destruct (has_code code' x); [apply has_code_bump | reflexivity]. }
  rewrite E. destruct (has_code code x); [reflexivity | exact IH].
Qed.

(** A redirect either leaves the row under [code] alone or bumps it. *)
Lemma select_url_update_same code t r :
  select_url code t = Some r ->
  select_url code (update_access_count code t) = Some (bump r).
Proof.
  intros H. rewrite select_url_update, H. simpl.
  apply select_url_Some in H. destruct H as [_ H].
  apply has_code_true in H. now rewrite H.
Qed.

Lemma select_url_update_other code code' t :
  code <> code' ->
  select_url code (update_access_count code' t) = select_url code t.
Proof.
  intros Hne. rewrite select_url_update.
  destruct (select_url code t) as [r|] eqn:E; [|reflexivity]. simpl.
  apply select_url_Some in E. destruct E as [_ E].
  destruct (has_code code' r) eqn:E'; [|reflexivity].
  apply has_code_true in E'. congruence.
Qed.

Lemma live_iff utcnow exp :
  live utcnow exp <-> year_1000 <= exp /\ utcnow <= instant exp.
Proof.
  unfold live, strptime. destruct (exp <? year_1000) eqn:E.
  - apply Z.ltb_lt in E. split; [intros (e & H & _); discriminate | lia].
  - apply Z.ltb_ge in E. split.
    + intros (e & H & Hle). injection H as <-. now split.
    + intros [_ Hle]. now exists (instant exp).
Qed.

Lemma past_iff utcnow exp :
  past utcnow exp <-> year_1000 <= exp /\ instant exp < utcnow.
Proof.
  unfold past, strptime. destruct (exp <? year_1000) eqn:E.
  - apply Z.ltb_lt in E. split; [intros (e & H & _); discriminate | lia].
  - apply Z.ltb_ge in E. split.
    + intros (e & H & Hlt). injection H as <-. now split.
    + intros [_ Hlt]. now exists (instant exp).
Qed.

Lemma is_expired_true utcnow exp : is_expired utcnow exp = Some true <-> past utcnow exp.
Proof.
  rewrite past_iff. unfold is_expired, strptime. destruct (exp <? year_1000) eqn:E.
  - apply Z.ltb_lt in E. split; [discriminate | lia].
  - apply Z.ltb_ge in E. split.
    + intros H. injection H as H. apply Z.ltb_lt in H. now split.
    + intros [_ H]. apply Z.ltb_lt in H. now rewrite H.
Qed.

Lemma is_expired_false utcnow exp : is_expired utcnow exp = Some false <-> live utcnow exp.
Proof.
  rewrite live_iff. unfold is_expired, strptime. destruct (exp <? year_1000) eqn:E.
  - apply Z.ltb_lt in E. split; [discriminate | lia].
  - apply Z.ltb_ge in E. split.
    + intros H. injection H as H. apply Z.ltb_ge in H. now split.
    + intros [_ H]. apply Z.ltb_ge in H. now rewrite H.
Qed.

Lemma is_expired_None utcnow exp : is_expired utcnow exp = None <-> exp < year_1000.
Proof.
  unfold is_expired, strptime. destruct (exp <? year_1000) eqn:E.
  - apply Z.ltb_lt in E. now split.
  - apply Z.ltb_ge in E. split; [discriminate | lia].
Qed.

Lemma NotFound_not_Expired : @NotFound string <> @Expired string.
Proof. discriminate. Qed.

(** ** Resolution *)

Lemma redirect_url_live db short ip t_chk t_log row :
  select_url short (urls db) = Some row ->
  live t_chk (expiration_time row) ->
  redirect_url db short ip t_chk t_log true
  = (Ok (original_url row),
     mk_db (update_access_count short (urls db))
           (insert_log (logs db) short (strftime t_log) ip)).
Proof.
  intros H Hlive. unfold redirect_url. rewrite H.
  apply is_expired_false in Hlive. now rewrite Hlive.
Qed.

Lemma redirect_url_expired db short ip t_chk t_log logs_up row :
  select_url short (urls db) = Some row ->
  past t_chk (expiration_time row) ->
  redirect_url db short ip t_chk t_log logs_up = (Expired, db).
Proof.
  intros H Hpast. unfold redirect_url. rewrite H.
  apply is_expired_true in Hpast. now rewrite Hpast.
Qed.

Lemma redirect_url_unreadable db short ip t_chk t_log logs_up row :
  select_url short (urls db) = Some row ->
  expiration_time row < year_1000 ->
  redirect_url db short ip t_chk t_log logs_up = (Uncaught ValueError, db).
Proof.
  intros H Hshort. unfold redirect_url. rewrite H.
  apply (is_expired_None t_chk) in Hshort. now rewrite Hshort.
Qed.

(** C2 on the code.  [page_a] is shortened on an empty database at
    [new_year] with expiry_hours = -9000000: the call returns the short URL
    and stores a row that expires in April 999.  A redirect of the code one
    hour later, with the clock a thousand years past that expiration time,
    does not answer Expired: reading the stored time back raises a
    ValueError that nothing catches, and the database is left as it was. *)
Theorem redirect_url_raises_on_short_year :
  let made := shorten_url (init_db None) page_a (-9000000) new_year new_year in
  let r := redirect_url (snd made) "1f1ff1" "10.0.0.7"
             (new_year + hour) (new_year + hour) true in
  fst made = Ok "https://short.ly/1f1ff1" /\
  urls (snd made) = [mk_url 1 page_a "1f1ff1" 63902822400 31502822400 0] /\
  instant 31502822400 < new_year + hour /\
  r = (Uncaught ValueError, snd made) /\
  fst r <> Expired.
Proof.
  vm_compute. repeat split. discriminate.
Qed.

(** X14.  [redirect_url] answers NotFound (404) when no row carries the
    code.  When a row does, it raises ValueError if the stored expiration
    time has a year below 1000; it answers Expired (410), and never a URL,
    if that time reads back and the clock is past it; and if the time reads
    back, the clock is not past it and the log INSERT goes through, it
    answers the row's original URL and the row under the code has its
    access_count raised by exactly one, all its other columns kept.  The two
    HTTP failures are different responses. *)
Theorem redirect_url_outcomes db short ip t_chk t_log :
  (select_url short (urls db) = None ->
   forall up, fst (redirect_url db short ip t_chk t_log up) = NotFound) /\
  (forall row, select_url short (urls db) = Some row ->
     (expiration_time row < year_1000 ->
        forall up, redirect_url db short ip t_chk t_log up = (Uncaught ValueError, db)) /\
     (past t_chk (expiration_time row) ->
        forall up, fst (redirect_url db short ip t_chk t_log up) = Expired /\
                   forall u, fst (redirect_url db short ip t_chk t_log up) <> Ok u) /\
     (live t_chk (expiration_time row) ->
        let r := redirect_url db short ip t_chk t_log true in
        fst r = Ok (original_url row) /\
        select_url short (urls (snd r)) = Some (bump row) /\
        access_count (bump row) = access_count row + 1)) /\
  @NotFound string <> @Expired string.
Proof.
  split; [|split; [|discriminate]].
  - intros H up. unfold redirect_url. now rewrite H.
  - intros row H. split; [|split].
    + intros Hshort up. now apply redirect_url_unreadable with (row := row).
    + intros Hpast up. rewrite (redirect_url_expired _ _ _ _ _ _ _ H Hpast).
      split; [reflexivity | discriminate].
    + intros Hlive. rewrite (redirect_url_live _ _ _ _ _ _ H Hlive). simpl.
      split; [reflexivity|]. split; [now apply select_url_update_same | reflexivity].
Qed.

Lemma redirect_url_outcomes_witness :
  fst (redirect_url one_link "000000" "10.0.0.7" new_year new_year true) = NotFound /\
  redirect_url long_ago_link "1f1ff1" "10.0.0.7" new_year new_year true
  = (Uncaught ValueError, long_ago_link) /\
  fst (redirect_url one_link "1f1ff1" "10.0.0.7"
         (new_year + 25 * hour) (new_year + 25 * hour) true) = Expired /\
  fst (redirect_url one_link "1f1ff1" "10.0.0.7"
         (new_year + hour) (new_year + hour) true) = Ok page_a.
Proof.
  split; [|split; [|split]].
  - apply (proj1 (redirect_url_outcomes one_link "000000" "10.0.0.7" new_year new_year)).
    vm_compute. reflexivity.
  - apply (proj1 (proj2 (redirect_url_outcomes long_ago_link "1f1ff1" "10.0.0.7"
                           new_year new_year))
             (mk_url 1 page_a "1f1ff1" 63902822400 31502822400 0)).
    + vm_compute. reflexivity.
    + vm_compute. reflexivity.
  - apply (proj1 (proj2 (redirect_url_outcomes one_link "1f1ff1" "10.0.0.7"
                           (new_year + 25 * hour) (new_year + 25 * hour)))
             (mk_url 1 page_a "1f1ff1" 63902822400 63902908800 0)).
    + vm_compute. reflexivity.
    + apply is_expired_true. vm_compute. reflexivity.
  - apply (proj1 (proj2 (redirect_url_outcomes one_link "1f1ff1" "10.0.0.7"
                           (new_year + hour) (new_year + hour)))
             (mk_url 1 page_a "1f1ff1" 63902822400 63902908800 0)).
    + vm_compute. reflexivity.
    + apply is_expired_false. vm_compute. reflexivity.
Defined.

(** C10.  A redirect that fails with NotFound or with Expired leaves the
    whole database as it found it: no log row, no counter, no column
    changes. *)
Theorem redirect_url_failure_atomic db short ip t_chk t_log logs_up :
  let r := redirect_url db short ip t_chk t_log logs_up in
  fst r = NotFound \/ fst r = Expired -> snd r = db.
Proof.
  intros r. subst r. unfold redirect_url.
  destruct (select_url short (urls db)) as [row|]; [|reflexivity].
  destruct (is_expired t_chk (expiration_time row)) as [[|]|]; try reflexivity.
  destruct logs_up; [|reflexivity].
  intros [H|H]; discriminate H.
Qed.

Lemma redirect_url_failure_atomic_witness :
  snd (redirect_url one_link "000000" "10.0.0.7" new_year new_year true) = one_link /\
  snd (redirect_url one_link "1f1ff1" "10.0.0.7"
         (new_year + 25 * hour) (new_year + 25 * hour) true) = one_link.
Proof.
  split.
  - apply (redirect_url_failure_atomic one_link "000000" "10.0.0.7" new_year new_year true).
    left. vm_compute. reflexivity.
  - apply (redirect_url_failure_atomic one_link "1f1ff1" "10.0.0.7"
             (new_year + 25 * hour) (new_year + 25 * hour) true).
    right. vm_compute. reflexivity.
Defined.

(** C8, as the code has it.  When the INSERT into logs raises, the redirect
    of a live code fails with it: the sqlite error is the response, no URL
    is returned, and the database is left unchanged (no counter increment,
    no log row). *)
Theorem redirect_url_log_failure db short ip t_chk t_log row :
  select_url short (urls db) = Some row ->
  live t_chk (expiration_time row) ->
  redirect_url db short ip t_chk t_log false = (Uncaught OperationalError, db).
Proof.
  intros H Hlive. unfold redirect_url. rewrite H.
  apply is_expired_false in Hlive. now rewrite Hlive.
Qed.

Lemma redirect_url_log_failure_witness :
  redirect_url one_link "1f1ff1" "10.0.0.7" (new_year + hour) (new_year + hour) false
  = (Uncaught OperationalError, one_link).
Proof.
  apply (redirect_url_log_failure one_link "1f1ff1" "10.0.0.7" (new_year + hour)
           (new_year + hour) (mk_url 1 page_a "1f1ff1" 63902822400 63902908800 0)).
  - vm_compute. reflexivity.
  - apply is_expired_false. vm_compute. reflexivity.
Defined.

(** C8, as the specification words it, fails: with the log unavailable the
    redirect of a live code returns no URL and the counter stays at 0. *)
Lemma log_failure_not_tolerated :
  let r := redirect_url one_link "1f1ff1" "10.0.0.7"
             (new_year + hour) (new_year + hour) false in
  select_url "1f1ff1" (urls one_link)
    = Some (mk_url 1 page_a "1f1ff1" 63902822400 63902908800 0) /\
  is_expired (new_year + hour) 63902908800 = Some false /\
  fst r <> Ok page_a /\
  option_map access_count (select_url "1f1ff1" (urls (snd r))) = Some 0.
Proof.
  vm_compute. repeat split; discriminate.
Qed.

(** ** Shortening *)

Lemma short_ly_inj c c' : short_ly c = short_ly c' -> c = c'.
Proof. unfold short_ly. simpl. intros H. now injection H. Qed.

(** Whatever the database holds, a shortening that returns names the
    truncated digest of its URL. *)
Lemma shorten_url_response db u h t1 t2 body :
  fst (shorten_url db u h t1 t2) = Ok body -> body = short_ly (generate_short_url u).
Proof.
  unfold shorten_url.
  destruct (datetime_add t1 (timedelta_hours h)); simpl; intros H;
    [now injection H | discriminate].
Qed.

(** On a code already in the table, the IntegrityError is passed over and
    nothing is written. *)
Lemma shorten_url_taken db u h t1 t2 r :
  select_url (generate_short_url u) (urls db) = Some r ->
  snd (shorten_url db u h t1 t2) = db.
Proof.
  intros H. unfold shorten_url, insert_url.
  destruct (datetime_add t1 (timedelta_hours h)); [|reflexivity].
  rewrite existsb_select, H. reflexivity.
Qed.

Lemma shorten_url_free db u h t1 t2 body :
  select_url (generate_short_url u) (urls db) = None ->
  fst (shorten_url db u h t1 t2) = Ok body ->
  snd (shorten_url db u h t1 t2) =
  mk_db (urls db ++ [mk_url (next_rowid url_id (urls db)) u (generate_short_url u)
                       (strftime t2) (strftime (t1 + h * 3600 * 1000000)) 0])
        (logs db).
Proof.
  intros H. unfold shorten_url, insert_url, datetime_add, timedelta_hours.
  rewrite existsb_select, H.
  destruct (999999999 <? Z.abs (h / 24)); [discriminate|].
  destruct ((0 <=? t1 + h * 3600 * 1000000) && (t1 + h * 3600 * 1000000 <? datetime_end));
    [reflexivity | discriminate].
Qed.

Lemma shorten_url_stores db u h t1 t2 body :
  fst (shorten_url db u h t1 t2) = Ok body ->
  exists r, select_url (generate_short_url u) (urls (snd (shorten_url db u h t1 t2))) = Some r /\
    (select_url (generate_short_url u) (urls db) = None ->
       original_url r = u /\ access_count r = 0 /\
       expiration_time r = strftime (t1 + h * 3600 * 1000000)) /\
    (forall r0, select_url (generate_short_url u) (urls db) = Some r0 -> r = r0).
Proof.
  intros Hok. destruct (select_url (generate_short_url u) (urls db)) as [r0|] eqn:E.
  - exists r0. rewrite (shorten_url_taken _ _ _ _ _ _ E). repeat split.
    + exact E.
    + discriminate.
    + discriminate.
    + discriminate.
    + intros r1 H. now injection H.
  - rewrite (shorten_url_free _ _ _ _ _ _ E Hok). simpl.
    rewrite select_url_app, E. simpl.
    unfold has_code. rewrite String.eqb_refl.
    eexists. split; [reflexivity|]. split; [intros _; now repeat split | discriminate].
Qed.

Lemma shorten_url_unique db u h t1 t2 :
  unique_codes db -> unique_codes (snd (shorten_url db u h t1 t2)).
Proof.
  intros Hu. unfold shorten_url.
  destruct (datetime_add t1 (timedelta_hours h)); [|exact Hu]. simpl.
  unfold insert_url. rewrite existsb_select.
  destruct (select_url (generate_short_url u) (urls db)) eqn:E; [exact Hu|].
  unfold unique_codes in *. simpl. rewrite map_app. simpl.
  apply NoDup_app; [exact Hu | repeat constructor; intros [] |].
  intros c Hin [Hc|[]]. subst c. apply in_map_iff in Hin.
  destruct Hin as (r & Hc & Hin).
  rewrite select_url_None in E. now apply (E r).
Qed.

(** C4.  Two shortenings of the same URL that both return give the same
    short URL; the second one writes nothing, so the table keeps its number
    of rows, the row under the code is still the one that was there after
    the first call (the row that call created, when the code was free), and
    the codes stay pairwise different. *)
Theorem shorten_url_idempotent db u h1 h2 t1 t1' t2 t2' body1 body2 :
  let db1 := snd (shorten_url db u h1 t1 t1') in
  let db2 := snd (shorten_url db1 u h2 t2 t2') in
  fst (shorten_url db u h1 t1 t1') = Ok body1 ->
  fst (shorten_url db1 u h2 t2 t2') = Ok body2 ->
  body1 = body2 /\
  db2 = db1 /\
  List.length (urls db2) = List.length (urls db1) /\
  (exists r, select_url (generate_short_url u) (urls db1) = Some r /\
             select_url (generate_short_url u) (urls db2) = Some r /\
             (select_url (generate_short_url u) (urls db) = None ->
                original_url r = u /\
                expiration_time r = strftime (t1 + h1 * 3600 * 1000000))) /\
  (unique_codes db -> unique_codes db2).
Proof.
  intros db1 db2 H1 H2.
  destruct (shorten_url_stores _ _ _ _ _ _ H1) as (r & Hr & Hfree & _).
  fold db1 in Hr.
  assert (E : db2 = db1) by (subst db2; now apply shorten_url_taken with (r := r)).
  split; [|split; [exact E|split; [now rewrite E|split]]].
  - apply shorten_url_response in H1. apply shorten_url_response in H2. congruence.
  - exists r. rewrite E. repeat split; try exact Hr; now apply Hfree.
  - intros Hu. rewrite E. subst db1. now apply shorten_url_unique.
Qed.

Lemma shorten_url_idempotent_witness :
  snd (shorten_url one_link page_a 48 (new_year + hour) (new_year + hour)) = one_link.
Proof.
  apply (shorten_url_idempotent (init_db None) page_a 24 48 new_year new_year
           (new_year + hour) (new_year + hour) (short_ly "1f1ff1") (short_ly "1f1ff1")).
  - vm_compute. reflexivity.
  - vm_compute. reflexivity.
Defined.

(** C3, as the code has it.  Resolving the code that [shorten_url] returned
    for [u] answers [u] when the code was unused before the call and the
    clock is not past the stored expiration time (the clock of the call
    plus the hours asked for, cut to whole seconds), and also when the code
    already belonged to a row of the same URL and the clock is not past
    that row's own expiration time, which the call does not extend.  In
    both cases the stored time is one that reads back, of year 1000 or
    later, as every time a clock of these years is not past. *)
Theorem round_trip db u h t1 t2 code ip t_chk t_log :
  fst (shorten_url db u h t1 t2) = Ok (short_ly code) ->
  (select_url (generate_short_url u) (urls db) = None /\
   live t_chk (strftime (t1 + h * 3600 * 1000000))) \/
  (exists r, select_url (generate_short_url u) (urls db) = Some r /\
             original_url r = u /\ live t_chk (expiration_time r)) ->
  fst (redirect_url (snd (shorten_url db u h t1 t2)) code ip t_chk t_log true) = Ok u.
Proof.
  intros Hok Hcase.
  assert (code = generate_short_url u) as ->
    by (apply short_ly_inj; now apply shorten_url_response in Hok).
  destruct (shorten_url_stores _ _ _ _ _ _ Hok) as (r & Hr & Hfree & Htaken).
  assert (Hlive : original_url r = u /\ live t_chk (expiration_time r)).
  { destruct Hcase as [[Hnone Ht] | (r0 & Hsome & Hu & Ht)].
    - destruct (Hfree Hnone) as (Hu & _ & He). rewrite He. now split.
    - rewrite (Htaken r0 Hsome). now split. }
  destruct Hlive as [Hu Ht].
  rewrite (redirect_url_live _ _ _ _ _ _ Hr Ht). simpl. now rewrite Hu.
Qed.

Lemma round_trip_witness :
  fst (redirect_url one_link "1f1ff1" "10.0.0.7"
         (new_year + hour) (new_year + hour + second) true) = Ok page_a.
Proof.
  apply (round_trip (init_db None) page_a 24 new_year new_year "1f1ff1" "10.0.0.7"
           (new_year + hour) (new_year + hour + second)).
  - vm_compute. reflexivity.
  - left. split.
    + vm_compute. reflexivity.
    + apply is_expired_false. vm_compute. reflexivity.
Defined.

(** C3, as the specification words it, fails.  [page_a] is shortened for one
    hour at [new_year] and again for five hours two hours later; the second
    call returns the same code and keeps the first row, so one second later,
    well before five hours have passed since either call, the code answers
    Expired. *)
Lemma round_trip_fails_on_kept_row :
  let db1 := snd (shorten_url (init_db None) page_a 1 new_year new_year) in
  let again := shorten_url db1 page_a 5 (new_year + 2 * hour) (new_year + 2 * hour) in
  let now := new_year + 2 * hour + second in
  fst again = Ok (short_ly "1f1ff1") /\
  now < new_year + 5 * hour /\
  now < new_year + 2 * hour + 5 * hour /\
  fst (redirect_url (snd again) "1f1ff1" "10.0.0.7" now now true) = Expired /\
  fst (redirect_url (snd again) "1f1ff1" "10.0.0.7" now now true) <> Ok page_a.
Proof.
  vm_compute. repeat split; discriminate.
Qed.

(** ** Colliding digests *)

(** Two URLs with one truncated digest: the second shortening finds the
    code taken, writes nothing and still returns the code. *)
Lemma shorten_url_collision db u1 u2 h1 h2 t1 t1' t2 t2' body :
  generate_short_url u1 = generate_short_url u2 ->
  fst (shorten_url db u1 h1 t1 t1') = Ok body ->
  let db1 := snd (shorten_url db u1 h1 t1 t1') in
  shorten_url db1 u2 h2 t2 t2' = (Ok body, db1) \/
  shorten_url db1 u2 h2 t2 t2' = (Uncaught OverflowError, db1).
Proof.
  intros Hc Hok db1.
  destruct (shorten_url_stores _ _ _ _ _ _ Hok) as (r & Hr & _).
  fold db1 in Hr. rewrite Hc in Hr.
  pose proof (shorten_url_taken db1 u2 h2 t2 t2' r Hr) as Hsnd.
  apply shorten_url_response in Hok. rewrite Hc in Hok.
  destruct (shorten_url db1 u2 h2 t2 t2') as [resp db2] eqn:E. simpl in Hsnd. subst db2.
  assert (Hresp : resp = fst (shorten_url db1 u2 h2 t2 t2')) by now rewrite E.
  unfold shorten_url in Hresp.
  destruct (datetime_add t2 (timedelta_hours h2)); simpl in Hresp; subst resp body;
    [now left | now right].
Qed.

(** C1 on the code.  [page_a] and [page_b] are different URLs whose MD5
    digests both start with 1f1ff1.  Shortened one after the other on an
    empty database, both get the short URL of that one code; the table
    holds the single row of [page_a], and the code resolves to [page_a],
    never to [page_b]: no other candidate is tried and no error is
    raised. *)
Theorem collision_shares_code :
  let one := shorten_url (init_db None) page_a 24 new_year new_year in
  let two := shorten_url (snd one) page_b 24 (new_year + second) (new_year + second) in
  page_a <> page_b /\
  generate_short_url page_a = "1f1ff1" /\
  generate_short_url page_b = "1f1ff1" /\
  fst one = Ok "https://short.ly/1f1ff1" /\
  fst two = Ok "https://short.ly/1f1ff1" /\
  urls (snd two) = [mk_url 1 page_a "1f1ff1" 63902822400 63902908800 0] /\
  fst (redirect_url (snd two) "1f1ff1" "10.0.0.7"
         (new_year + hour) (new_year + hour) true) = Ok page_a.
Proof.
  vm_compute. repeat split. discriminate.
Qed.

(** ** Histories *)

Lemma hit_0 r : hit 0 r = r.
Proof. destruct r. unfold hit. simpl. now rewrite Z.add_0_r. Qed.

Lemma hit_1 r : bump r = hit 1 r.
Proof. reflexivity. Qed.

Lemma hit_hit n m r : hit n (hit m r) = hit (m + n) r.
Proof. unfold hit. simpl. now rewrite Z.add_assoc. Qed.

Lemma visits_app code h h' : visits code (h ++ h') = visits code h ++ visits code h'.
Proof. unfold visits. now rewrite filter_app, map_app. Qed.

Lemma resolutions_app code h h' :
  resolutions code (h ++ h') = resolutions code h + resolutions code h'.
Proof. unfold resolutions. rewrite visits_app, length_app. lia. Qed.

Lemma resolutions_nonneg code h : 0 <= resolutions code h.
Proof. unfold resolutions. lia. Qed.

Lemma select_logs_entries code l : select_logs code l = visits code (map entry l).
Proof.
  unfold select_logs, visits. induction l as [|e l IH]; simpl; [reflexivity|].
  unfold log_of at 1. destruct (String.eqb (log_short_url e) code); simpl; now rewrite IH.
Qed.

Lemma shorten_url_urls db u h t1 t2 :
  exists tail, urls (snd (shorten_url db u h t1 t2)) = urls db ++ tail /\
    Forall (fun r => access_count r = 0) tail /\
    logs (snd (shorten_url db u h t1 t2)) = logs db.
Proof.
  unfold shorten_url, insert_url.
  destruct (datetime_add t1 (timedelta_hours h)); simpl.
  - destruct (existsb (has_code (generate_short_url u)) (urls db)); simpl.
    + exists []. now rewrite app_nil_r.
    + eexists. split; [reflexivity|]. split; [|reflexivity]. now repeat constructor.
  - exists []. now rewrite app_nil_r.
Qed.

(** What one request does to the log table. *)
Lemma handle_logs db rq :
  exists new, logs (handle db rq) = logs db ++ new /\ map entry new = logged db rq.
Proof.
  destruct rq as [u h t1 t2 | c ip t1 t2 up | c]; simpl.
  - destruct (shorten_url_urls db u h t1 t2) as (_ & _ & _ & H).
    exists []. now rewrite H, app_nil_r.
  - unfold redirect_url.
    destruct (select_url c (urls db)) as [row|]; simpl;
      [|exists []; now rewrite app_nil_r].
    destruct (is_expired t1 (expiration_time row)) as [[|]|]; simpl;
      try (exists []; now rewrite app_nil_r).
    destruct up; simpl; [|exists []; now rewrite app_nil_r].
    eexists. split; reflexivity.
  - exists []. now rewrite app_nil_r.
Qed.

(** What one request does to the row under [code]. *)
Lemma handle_select db rq code row :
  select_url code (urls db) = Some row ->
  select_url code (urls (handle db rq)) = Some (hit (resolutions code (logged db rq)) row).
Proof.
  intros H. destruct rq as [u h t1 t2 | c ip t1 t2 up | c]; simpl.
  - destruct (shorten_url_urls db u h t1 t2) as (tail & E & _).
    now rewrite E, select_url_app, H, hit_0.
  - unfold redirect_url.
    destruct (select_url c (urls db)) as [row'|] eqn:Ec; simpl; [|now rewrite hit_0].
    destruct (is_expired t1 (expiration_time row')) as [[|]|]; simpl;
      try (now rewrite hit_0).
    destruct up; simpl; [|now rewrite hit_0].
    unfold resolutions, visits. simpl.
    destruct (String.eqb c code) eqn:Eq; simpl.
    + apply String.eqb_eq in Eq. subst c. now apply select_url_update_same.
    + apply String.eqb_neq in Eq. rewrite hit_0, select_url_update_other; congruence.
  - now rewrite hit_0.
Qed.

Lemma run_logs db rqs :
  exists new, logs (run db rqs) = logs db ++ new /\ map entry new = history db rqs.
Proof.
  revert db. induction rqs as [|rq rqs IH]; intros db; simpl.
  - exists []. now rewrite app_nil_r.
  - destruct (handle_logs db rq) as (n1 & E1 & M1).
    destruct (IH (handle db rq)) as (n2 & E2 & M2).
    exists (n1 ++ n2). unfold run in *. simpl.
    rewrite E2, E1, <- app_assoc, map_app, M1, M2. now split.
Qed.

Lemma run_select db rqs code row :
  select_url code (urls db) = Some row ->
  select_url code (urls (run db rqs)) = Some (hit (resolutions code (history db rqs)) row).
Proof.
  revert db row. induction rqs as [|rq rqs IH]; intros db row H; simpl.
  - now rewrite hit_0.
  - unfold run in *. simpl.
    rewrite (IH _ _ (handle_select db rq code row H)).
    now rewrite hit_hit, resolutions_app.
Qed.

Lemma handle_nonneg db rq :
  Forall (fun r => 0 <= access_count r) (urls db) ->
  Forall (fun r => 0 <= access_count r) (urls (handle db rq)).
Proof.
  intros H. destruct rq as [u h t1 t2 | c ip t1 t2 up | c]; simpl; [| |exact H].
  - destruct (shorten_url_urls db u h t1 t2) as (tail & E & Hz & _).
    rewrite E. apply Forall_app. split; [exact H|].
    eapply Forall_impl; [|exact Hz]. simpl. intros r Hr. lia.
  - unfold redirect_url.
    destruct (select_url c (urls db)) as [row|]; simpl; [|exact H].
    destruct (is_expired t1 (expiration_time row)) as [[|]|]; simpl; try exact H.
    destruct up; simpl; [|exact H].
    unfold update_access_count. apply Forall_map.
    eapply Forall_impl; [|exact H]. simpl. intros r Hr.
    destruct (has_code c r); simpl; lia.
Qed.

Lemma run_nonneg db rqs :
  Forall (fun r => 0 <= access_count r) (urls db) ->
  Forall (fun r => 0 <= access_count r) (urls (run db rqs)).
Proof.
  revert db. induction rqs as [|rq rqs IH]; intros db H; [exact H|].
  unfold run in *. simpl. apply IH. now apply handle_nonneg.
Qed.

(** ** The access counter *)

(** C5.  From the empty database every access_count is non-negative; a row
    is created with access_count 0; and over any sequence of shorten,
    redirect and analytics requests the row under a code keeps all its
    other columns while its access_count grows by exactly the number of
    redirects of that code that answered with the URL, so it never
    decreases, and shortenings, failed redirects and analytics leave it
    alone. *)
Theorem access_count_invariant :
  (forall rqs r, In r (urls (run (init_db None) rqs)) -> 0 <= access_count r) /\
  (forall db u h t1 t2 body,
     select_url (generate_short_url u) (urls db) = None ->
     fst (shorten_url db u h t1 t2) = Ok body ->
     exists r, select_url (generate_short_url u) (urls (snd (shorten_url db u h t1 t2)))
               = Some r /\ access_count r = 0) /\
  (forall db rqs code row,
     select_url code (urls db) = Some row ->
     select_url code (urls (run db rqs))
       = Some (hit (resolutions code (history db rqs)) row) /\
     access_count row <= access_count (hit (resolutions code (history db rqs)) row)) /\
  (forall db rq code row,
     select_url code (urls db) = Some row ->
     (forall ip t_chk t_log up u,
        rq = GetRedirect code ip t_chk t_log up ->
        fst (redirect_url db code ip t_chk t_log up) <> Ok u) ->
     select_url code (urls (handle db rq)) = Some row).
Proof.
  split; [|split; [|split]].
  - intros rqs r Hin.
    assert (H : Forall (fun r => 0 <= access_count r) (urls (run (init_db None) rqs)))
      by (apply run_nonneg; constructor).
    rewrite Forall_forall in H. now apply H.
  - intros db u h t1 t2 body Hnone Hok.
    destruct (shorten_url_stores _ _ _ _ _ _ Hok) as (r & Hr & Hfree & _).
    exists r. split; [exact Hr | now apply Hfree].
  - intros db rqs code row H. split; [now apply run_select|].
    simpl. pose proof (resolutions_nonneg code (history db rqs)). lia.
  - intros db rq code row H Hfail.
    rewrite (handle_select db rq code row H).
    replace (resolutions code (logged db rq)) with 0; [now rewrite hit_0|].
    destruct rq as [u h t1 t2 | c ip t1 t2 up | c]; simpl; try reflexivity.
    destruct (fst (redirect_url db c ip t1 t2 up)) as [u| |] eqn:E; try reflexivity.
    unfold resolutions, visits. simpl.
    destruct (String.eqb c code) eqn:Eq; [|reflexivity].
    apply String.eqb_eq in Eq. subst c.
    exfalso. now apply (Hfail ip t1 t2 up u).
Qed.

Lemma access_count_invariant_witness :
  option_map access_count
    (select_url "1f1ff1"
       (urls (run one_link
                [GetRedirect "1f1ff1" "10.0.0.7" (new_year + hour) (new_year + hour) true;
                 PostShorten page_b 24 (new_year + hour) (new_year + hour);
                 GetRedirect "1f1ff1" "10.0.0.8" (new_year + 30 * hour) (new_year + 30 * hour) true;
                 GetAnalytics "1f1ff1";
                 GetRedirect "1f1ff1" "10.0.0.9" (new_year + 2 * hour) (new_year + 2 * hour) true])))
  = Some 2.
Proof.
  destruct access_count_invariant as (_ & _ & H & _).
  destruct (H one_link
              [GetRedirect "1f1ff1" "10.0.0.7" (new_year + hour) (new_year + hour) true;
               PostShorten page_b 24 (new_year + hour) (new_year + hour);
               GetRedirect "1f1ff1" "10.0.0.8" (new_year + 30 * hour) (new_year + 30 * hour) true;
               GetAnalytics "1f1ff1";
               GetRedirect "1f1ff1" "10.0.0.9" (new_year + 2 * hour) (new_year + 2 * hour) true]
              "1f1ff1" (mk_url 1 page_a "1f1ff1" 63902822400 63902908800 0)) as [E _].
  - vm_compute. reflexivity.
  - rewrite E. vm_compute. reflexivity.
Defined.

(** ** The access log *)

(** C6.  A redirect that answers with the URL appends exactly one row to
    logs, carrying its code, the time and the caller's address; the code had
    a row in urls when the entry was written and that row had passed the
    expiry check.  Every other request (a shortening, an analytics request,
    a redirect that fails) leaves logs as it was.  Over any sequence of
    requests the old table is a prefix of the new one: rows are only
    appended, one per successful redirect and in their order. *)
Theorem access_log_invariant db :
  (forall code ip t_chk t_log up u,
     fst (redirect_url db code ip t_chk t_log up) = Ok u ->
     logs (handle db (GetRedirect code ip t_chk t_log up))
       = logs db ++ [mk_log (next_rowid log_id (logs db)) code (strftime t_log) ip] /\
     exists row, select_url code (urls db) = Some row /\
                 is_expired t_chk (expiration_time row) = Some false) /\
  (forall rq,
     (forall code ip t_chk t_log up u,
        rq = GetRedirect code ip t_chk t_log up ->
        fst (redirect_url db code ip t_chk t_log up) <> Ok u) ->
     logs (handle db rq) = logs db) /\
  (forall rqs, exists new,
     logs (run db rqs) = logs db ++ new /\ map entry new = history db rqs).
Proof.
  split; [|split].
  - intros code ip t_chk t_log up u. simpl. unfold redirect_url.
    destruct (select_url code (urls db)) as [row|]; simpl; [|discriminate].
    destruct (is_expired t_chk (expiration_time row)) as [[|]|] eqn:E; simpl;
      try discriminate.
    destruct up; simpl; [|discriminate].
    intros _. split; [reflexivity|]. exists row. now split.
  - intros rq Hfail.
    destruct (handle_logs db rq) as (new & E & M).
    assert (Hnil : logged db rq = []).
    { destruct rq as [u h t1 t2 | c ip t1 t2 up | c]; simpl; try reflexivity.
      destruct (fst (redirect_url db c ip t1 t2 up)) as [u| |] eqn:Er; try reflexivity.
      exfalso. now apply (Hfail c ip t1 t2 up u). }
    rewrite Hnil in M. apply map_eq_nil in M. subst new. now rewrite E, app_nil_r.
  - apply run_logs.
Qed.

Lemma access_log_invariant_witness :
  logs (handle one_link (GetRedirect "1f1ff1" "10.0.0.7" (new_year + hour) (new_year + hour) true))
  = [mk_log 1 "1f1ff1" 63902826000 "10.0.0.7"] /\
  logs (handle one_link (GetRedirect "1f1ff1" "10.0.0.7" (new_year + 25 * hour)
                           (new_year + 25 * hour) true)) = [].
Proof.
  split.
  - apply (proj1 (access_log_invariant one_link) "1f1ff1" "10.0.0.7"
             (new_year + hour) (new_year + hour) true page_a).
    vm_compute. reflexivity.
  - apply (proj1 (proj2 (access_log_invariant one_link))).
    intros code ip t_chk t_log up u E. injection E as <- <- <- <- <-.
    vm_compute. discriminate.
Defined.

(** ** Analytics reports *)

Lemma select_url_unique t r :
  NoDup (map short_url t) -> In r t -> select_url (short_url r) t = Some r.
Proof.
  unfold select_url. induction t as [|x t IH]; simpl; intros Hnd Hin; [destruct Hin|].
  inversion Hnd as [|? ? Hnot Hnd']; subst.
  destruct Hin as [->|Hin].
  - unfold has_code. now rewrite String.eqb_refl.
  - destruct (has_code (short_url r) x) eqn:E.
    + apply has_code_true in E. exfalso. apply Hnot. rewrite E. now apply in_map.
    + now apply IH.
Qed.

(** C7.  [get_analytics] answers NotFound exactly when no row of urls
    carries the code.  For the row that does, it answers that row's
    original URL, access_count and expiration time with the code's log
    entries in table order, and it reads no clock: the answer is there when
    a redirect of the same code fails with Expired.  After any sequence of
    requests the report shows the counter raised by the number of
    successful redirects of the code, and the earlier entries followed by
    those of these redirects, in the order they happened. *)
Theorem get_analytics_report db short :
  (get_analytics db short = NotFound <->
   forall r, In r (urls db) -> short_url r <> short) /\
  (forall row,
     unique_codes db -> In row (urls db) -> short_url row = short ->
     get_analytics db short
       = Ok (mk_analytics (original_url row) (short_ly short) (access_count row)
               (expiration_time row) (select_logs short (logs db))) /\
     forall ip t_chk t_log up,
       past t_chk (expiration_time row) ->
       fst (redirect_url db short ip t_chk t_log up) = Expired) /\
  (forall row rqs,
     select_url short (urls db) = Some row ->
     get_analytics (run db rqs) short
       = Ok (mk_analytics (original_url row) (short_ly short)
               (access_count row + resolutions short (history db rqs))
               (expiration_time row)
               (select_logs short (logs db) ++ visits short (history db rqs)))).
Proof.
  split; [|split].
  - rewrite <- select_url_None. unfold get_analytics.
    destruct (select_url short (urls db)); split; intros H;
      try discriminate; reflexivity.
  - intros row Hu Hin Hc.
    pose proof (select_url_unique (urls db) row Hu Hin) as E. rewrite Hc in E.
    split.
    + unfold get_analytics. now rewrite E.
    + intros ip t_chk t_log up Hpast.
      now rewrite (redirect_url_expired _ _ _ _ _ _ _ E Hpast).
  - intros row rqs E. unfold get_analytics.
    rewrite (run_select db rqs short row E). simpl.
    destruct (run_logs db rqs) as (new & El & M).
    rewrite El. rewrite !select_logs_entries, map_app, visits_app, M. reflexivity.
Qed.

Lemma get_analytics_report_witness :
  get_analytics one_link "1f1ff1"
  = Ok (mk_analytics page_a "https://short.ly/1f1ff1" 0 63902908800 []) /\
  fst (redirect_url one_link "1f1ff1" "10.0.0.7" (new_year + 25 * hour)
         (new_year + 25 * hour) true) = Expired.
Proof.
  destruct (proj1 (proj2 (get_analytics_report one_link "1f1ff1"))
              (mk_url 1 page_a "1f1ff1" 63902822400 63902908800 0)) as [E1 E2].
  - vm_compute. repeat constructor; simpl; intuition.
  - vm_compute. now left.
  - reflexivity.
  - split; [exact E1|]. apply E2. apply is_expired_true. vm_compute. reflexivity.
Defined.

(** ** Interleaved redirects *)

Lemma count_resolved_cons code h pool :
  count_resolved code (h :: pool)
  = (if resolved code h then 1 else 0) + count_resolved code pool.
Proof.
  unfold count_resolved. simpl filter.
  destruct (resolved code h); simpl List.length; lia.
Qed.

(** Taken alone, the four statements of a handler are [redirect_url]. *)
Lemma redirect_url_in_steps db short ip t0 t_chk t_log t3 :
  interleave db [arriving short ip] [(0%nat, t0); (0%nat, t_chk); (0%nat, t_log); (0%nat, t3)]
  = (snd (redirect_url db short ip t_chk t_log true),
     [mk_handler short ip (Finished (fst (redirect_url db short ip t_chk t_log true)))]).
Proof.
  unfold redirect_url. simpl. unfold advance at 1. simpl.
  destruct (select_url short (urls db)) as [row|]; simpl; [|reflexivity].
  unfold advance at 1. simpl.
  destruct (is_expired t_chk (expiration_time row)) as [[|]|]; reflexivity.
Qed.

(** One statement of one handler moves the row under [code] by what it adds
    to the handlers that have resolved [code]. *)
Lemma advance_select db h utcnow code row :
  select_url code (urls db) = Some row ->
  let '(db', h') := advance db h utcnow in
  select_url code (urls db')
  = Some (hit ((if resolved code h' then 1 else 0) - (if resolved code h then 1 else 0)) row).
Proof.
  intros H. unfold advance, resolved.
  destruct h as [short ip [ |r|r|r|resp]]; simpl.
  - destruct (select_url short (urls db)); simpl; now rewrite hit_0.
  - destruct (is_expired utcnow (expiration_time r)) as [[|]|]; simpl; now rewrite hit_0.
  - now rewrite hit_0.
  - destruct (String.eqb short code) eqn:E.
    + apply String.eqb_eq in E. subst short. now apply select_url_update_same.
    + apply String.eqb_neq in E. rewrite hit_0, select_url_update_other; congruence.
  - rewrite Z.sub_diag. now rewrite hit_0.
Qed.

Lemma advance_nth_select db pool i utcnow code row :
  select_url code (urls db) = Some row ->
  let '(db', pool') := advance_nth db pool i utcnow in
  select_url code (urls db')
  = Some (hit (count_resolved code pool' - count_resolved code pool) row) /\
  List.length pool' = List.length pool.
Proof.
  intros H. revert i. induction pool as [|h pool IH]; intros i; simpl.
  - change (count_resolved code [] - count_resolved code []) with 0.
    now rewrite hit_0.
  - destruct i as [|i].
    + pose proof (advance_select db h utcnow code row H) as Ha.
      destruct (advance db h utcnow) as [db' h']. rewrite Ha.
      rewrite !count_resolved_cons. split; [f_equal; f_equal; lia | reflexivity].
    + specialize (IH i). destruct (advance_nth db pool i utcnow) as [db' pool'].
      destruct IH as [IH Hlen]. rewrite IH, !count_resolved_cons.
      split; [f_equal; f_equal; lia | simpl; now rewrite Hlen].
Qed.

Lemma interleave_select db pool sch code row :
  select_url code (urls db) = Some row ->
  select_url code (urls (fst (interleave db pool sch)))
  = Some (hit (count_resolved code (snd (interleave db pool sch))
               - count_resolved code pool) row) /\
  List.length (snd (interleave db pool sch)) = List.length pool.
Proof.
  revert db pool row. induction sch as [|[i utcnow] sch IH]; intros db pool row H; simpl.
  - rewrite Z.sub_diag. now rewrite hit_0.
  - pose proof (advance_nth_select db pool i utcnow code row H) as Hs.
    destruct (advance_nth db pool i utcnow) as [db' pool'].
    destruct Hs as [Hs Hlen].
    destruct (IH db' pool' _ Hs) as [E El]. rewrite E, hit_hit, El, Hlen.
    split; [f_equal; f_equal; lia | reflexivity].
Qed.

Lemma count_resolved_all code pool :
  Forall (fun h => resolved code h = true) pool ->
  count_resolved code pool = Z.of_nat (List.length pool).
Proof.
  induction 1 as [|h pool Hh _ IH]; [reflexivity|].
  rewrite count_resolved_cons, Hh, IH. simpl List.length. lia.
Qed.

Lemma count_resolved_arriving code reqs :
  count_resolved code (map (fun rq => arriving (fst rq) (snd rq)) reqs) = 0.
Proof.
  induction reqs as [|rq reqs IH]; [reflexivity|].
  simpl map. now rewrite count_resolved_cons, IH.
Qed.

(** C9.  Any number of redirect handlers run against one database, their
    SQL statements interleaved in any order: at every moment the
    access_count of a code stands at its initial value plus the number of
    handlers that have resolved that code, and when all [N] handlers have
    resolved it the count has grown by exactly [N].  The count a handler
    read with its SELECT is never written back. *)
Theorem no_lost_update db (reqs : list (string * string)) (sch : schedule) code row :
  let pool := map (fun rq => arriving (fst rq) (snd rq)) reqs in
  let final := interleave db pool sch in
  select_url code (urls db) = Some row ->
  select_url code (urls (fst final))
    = Some (hit (count_resolved code (snd final)) row) /\
  (Forall (fun h => resolved code h = true) (snd final) ->
   select_url code (urls (fst final)) = Some (hit (Z.of_nat (List.length reqs)) row)).
Proof.
  intros pool final H.
  destruct (interleave_select db pool sch code row H) as [E El].
  fold final in E, El. subst pool.
  rewrite count_resolved_arriving, Z.sub_0_r in E.
  split; [exact E|].
  intros Hall. rewrite E, (count_resolved_all _ _ Hall), El. now rewrite length_map.
Qed.

Lemma no_lost_update_witness :
  let final :=
    interleave one_link [arriving "1f1ff1" "10.0.0.7"; arriving "1f1ff1" "10.0.0.8"]
      [(0%nat, new_year + hour); (1%nat, new_year + hour);
       (1%nat, new_year + hour); (0%nat, new_year + hour);
       (0%nat, new_year + hour); (1%nat, new_year + hour);
       (1%nat, new_year + hour); (0%nat, new_year + hour)] in
  option_map access_count (select_url "1f1ff1" (urls (fst final))) = Some 2.
Proof.
  intros final.
  destruct (no_lost_update one_link
              [("1f1ff1", "10.0.0.7"); ("1f1ff1", "10.0.0.8")]
              [(0%nat, new_year + hour); (1%nat, new_year + hour);
               (1%nat, new_year + hour); (0%nat, new_year + hour);
               (0%nat, new_year + hour); (1%nat, new_year + hour);
               (1%nat, new_year + hour); (0%nat, new_year + hour)]
              "1f1ff1" (mk_url 1 page_a "1f1ff1" 63902822400 63902908800 0)) as [_ E].
  - vm_compute. reflexivity.
  - subst final. simpl map in E. rewrite E.
    + vm_compute. reflexivity.
    + vm_compute. repeat constructor.
Defined.

(** * Further properties of the endpoints *)

(** ** What a request can do to the tables *)

Lemma shorten_url_cases db u h t1 t2 :
  snd (shorten_url db u h t1 t2) = db \/
  (select_url (generate_short_url u) (urls db) = None /\
   exists created expires,
     snd (shorten_url db u h t1 t2)
     = mk_db (urls db ++ [mk_url (next_rowid url_id (urls db)) u (generate_short_url u)
                            created expires 0])
             (logs db)).
Proof.
  unfold shorten_url, insert_url.
  destruct (datetime_add t1 (timedelta_hours h)); [|now left]. simpl.
  rewrite existsb_select.
  destruct (select_url (generate_short_url u) (urls db)); [now left|].
  right. split; [reflexivity|]. now eexists; eexists.
Qed.

Lemma redirect_url_cases db c ip t1 t2 up :
  snd (redirect_url db c ip t1 t2 up) = db \/
  (exists row, select_url c (urls db) = Some row /\
     fst (redirect_url db c ip t1 t2 up) = Ok (original_url row) /\
     snd (redirect_url db c ip t1 t2 up)
     = mk_db (update_access_count c (urls db))
             (insert_log (logs db) c (strftime t2) ip)).
Proof.
  unfold redirect_url.
  destruct (select_url c (urls db)) as [row|]; [|now left].
  destruct (is_expired t1 (expiration_time row)) as [[|]|]; try (now left).
  destruct up; [|now left].
  right. exists row. now repeat split.
Qed.

Lemma update_access_count_codes c t :
  map short_url (update_access_count c t) = map short_url t.
Proof.
  unfold update_access_count. rewrite map_map. apply map_ext.
  intros r. now destruct (has_code c r).
Qed.

Lemma select_logs_app code l l' :
  select_logs code (l ++ l') = select_logs code l ++ select_logs code l'.
Proof. unfold select_logs. now rewrite filter_app, map_app. Qed.

Lemma select_logs_insert code l c ts ip :
  select_logs code (insert_log l c ts ip)
  = select_logs code l ++ (if String.eqb c code then [(ts, ip)] else []).
Proof.
  unfold insert_log. rewrite select_logs_app. f_equal.
  unfold select_logs, log_of. simpl. now destruct (String.eqb c code).
Qed.

(** ** The UNIQUE constraint holds *)

Lemma handle_unique db rq : unique_codes db -> unique_codes (handle db rq).
Proof.
  intros Hu. destruct rq as [u h t1 t2 | c ip t1 t2 up | c]; simpl; [| |exact Hu].
  - now apply shorten_url_unique.
  - destruct (redirect_url_cases db c ip t1 t2 up) as [E | (row & _ & _ & E)];
      rewrite E; [exact Hu|].
    unfold unique_codes. simpl. now rewrite update_access_count_codes.
Qed.

(** X1.  No sequence of requests puts two rows with the same short_url into
    urls: a database whose codes are pairwise different keeps them so, and
    so does every database grown from the empty one. *)
Theorem unique_codes_invariant db rqs :
  unique_codes db -> unique_codes (run db rqs).
Proof.
  revert db. induction rqs as [|rq rqs IH]; intros db Hu; [exact Hu|].
  unfold run in *. simpl. apply IH. now apply handle_unique.
Qed.

Lemma unique_codes_invariant_witness :
  unique_codes
    (run (init_db None)
       [PostShorten page_a 24 new_year new_year;
        PostShorten page_b 24 new_year new_year;
        PostShorten "https://example.com/" 24 new_year new_year;
        GetRedirect "1f1ff1" "10.0.0.7" (new_year + hour) (new_year + hour) true]).
Proof.
  apply (unique_codes_invariant (init_db None)). constructor.
Defined.

(** ** Counter and log agree *)

Lemma handle_counted db rq : counted db -> counted (handle db rq).
Proof.
  intros Hc code. specialize (Hc code).
  destruct rq as [u h t1 t2 | c ip t1 t2 up | c]; simpl; [| |exact Hc].
  - destruct (shorten_url_cases db u h t1 t2) as [E | (Hfree & cr & ex & E)];
      rewrite E; [exact Hc|]. simpl.
    rewrite select_url_app.
    destruct (select_url code (urls db)) as [row|] eqn:Es; [exact Hc|].
    simpl. destruct (has_code code _) eqn:Eh; [|exact Hc].
    simpl. now rewrite Hc.
  - destruct (redirect_url_cases db c ip t1 t2 up) as [E | (row & Hrow & _ & E)];
      rewrite E; [exact Hc|]. simpl.
    rewrite select_logs_insert, select_url_update.
    destruct (select_url code (urls db)) as [r|] eqn:Es; simpl.
    + apply select_url_Some in Es. destruct Es as [_ Es].
      unfold has_code. rewrite Es, String.eqb_sym.
      destruct (String.eqb c code); simpl.
      * rewrite length_app. simpl List.length. lia.
      * now rewrite app_nil_r.
    + destruct (String.eqb c code) eqn:Eq; [|now rewrite app_nil_r].
      apply String.eqb_eq in Eq. subst c. congruence.
Qed.

Lemma run_counted db rqs : counted db -> counted (run db rqs).
Proof.
  revert db. induction rqs as [|rq rqs IH]; intros db Hc; [exact Hc|].
  unfold run in *. simpl. apply IH. now apply handle_counted.
Qed.

Lemma counted_empty : counted (init_db None).
Proof. intros code. reflexivity. Qed.

(** X2.  In a database grown from an empty one by any sequence of requests,
    every analytics report shows an access_count equal to the number of log
    entries it lists. *)
Theorem report_count_matches_log rqs code a :
  get_analytics (run (init_db None) rqs) code = Ok a ->
  a_access_count a = Z.of_nat (List.length (a_logs a)).
Proof.
  intros H. unfold get_analytics in H.
  pose proof (run_counted (init_db None) rqs counted_empty code) as Hc.
  destruct (select_url code (urls (run (init_db None) rqs))) as [row|]; [|discriminate].
  injection H as <-. exact Hc.
Qed.

Lemma report_count_matches_log_witness :
  a_access_count
    (mk_analytics page_a "https://short.ly/1f1ff1" 2 63902908800
       [(63902826000, "10.0.0.7"); (63902829600, "10.0.0.9")]) = 2.
Proof.
  apply (report_count_matches_log
           [PostShorten page_a 24 new_year new_year;
            GetRedirect "1f1ff1" "10.0.0.7" (new_year + hour) (new_year + hour) true;
            GetRedirect "1f1ff1" "10.0.0.8" (new_year + 30 * hour) (new_year + 30 * hour) true;
            GetRedirect "1f1ff1" "10.0.0.9" (new_year + 2 * hour) (new_year + 2 * hour) true]
           "1f1ff1").
  vm_compute. reflexivity.
Defined.

Lemma select_logs_In e l : In e l -> select_logs (log_short_url e) l <> [].
Proof.
  intros Hin. apply in_split in Hin. destruct Hin as (l1 & l2 & ->).
  rewrite select_logs_app. unfold select_logs at 2. simpl.
  unfold log_of at 1. rewrite String.eqb_refl. simpl.
  intros H. apply app_eq_nil in H. destruct H as [_ H]. discriminate H.
Qed.

(** X3.  The foreign key of logs holds although SQLite is not asked to
    enforce it: in a database grown from an empty one, every log row's
    short_url is the short_url of a row of urls. *)
Theorem logs_reference_urls rqs e :
  In e (logs (run (init_db None) rqs)) ->
  exists row, In row (urls (run (init_db None) rqs)) /\ short_url row = log_short_url e.
Proof.
  intros Hin.
  pose proof (run_counted (init_db None) rqs counted_empty (log_short_url e)) as Hc.
  destruct (select_url (log_short_url e) (urls (run (init_db None) rqs))) as [row|] eqn:E.
  - exists row. now apply select_url_Some.
  - exfalso. now apply (select_logs_In e _ Hin).
Qed.

Lemma logs_reference_urls_witness :
  exists row,
    In row (urls (run (init_db None)
                    [PostShorten page_a 24 new_year new_year;
                     GetRedirect "1f1ff1" "10.0.0.7" (new_year + hour) (new_year + hour) true]))
    /\ short_url row = "1f1ff1".
Proof.
  apply (logs_reference_urls
           [PostShorten page_a 24 new_year new_year;
            GetRedirect "1f1ff1" "10.0.0.7" (new_year + hour) (new_year + hour) true]
           (mk_log 1 "1f1ff1" 63902826000 "10.0.0.7")).
  vm_compute. now left.
Defined.

(** ** Expiry *)

Lemma redirect_url_Expired_inv db code ip t_chk t_log up :
  fst (redirect_url db code ip t_chk t_log up) = Expired ->
  exists row, select_url code (urls db) = Some row /\
              past t_chk (expiration_time row).
Proof.
  unfold redirect_url.
  destruct (select_url code (urls db)) as [row|]; [|discriminate].
  destruct (is_expired t_chk (expiration_time row)) as [[|]|] eqn:E.
  - intros _. exists row. split; [reflexivity | now apply is_expired_true].
  - destruct up; discriminate.
  - discriminate.
Qed.

(** X4.  Expiry is final.  Once a redirect of a code has answered Expired,
    every redirect of that code at the same or a later clock answers
    Expired, whatever requests were served in between: no shortening, of
    the same URL or another, renews the row. *)
Theorem expired_stays_expired db rqs code ip t_chk t_log up ip' t_chk' t_log' up' :
  fst (redirect_url db code ip t_chk t_log up) = Expired ->
  t_chk <= t_chk' ->
  fst (redirect_url (run db rqs) code ip' t_chk' t_log' up') = Expired.
Proof.
  intros H Hle. apply redirect_url_Expired_inv in H. destruct H as (row & Hrow & Hpast).
  pose proof (run_select db rqs code row Hrow) as Hrun.
  rewrite (redirect_url_expired _ _ _ _ _ _ _ Hrun); [reflexivity|]. simpl.
  apply past_iff in Hpast. apply past_iff. split; lia.
Qed.

Lemma expired_stays_expired_witness :
  fst (redirect_url
         (run one_link [PostShorten page_a 1000 (new_year + 26 * hour) (new_year + 26 * hour)])
         "1f1ff1" "10.0.0.8" (new_year + 27 * hour) (new_year + 27 * hour) true) = Expired.
Proof.
  apply (expired_stays_expired one_link
           [PostShorten page_a 1000 (new_year + 26 * hour) (new_year + 26 * hour)]
           "1f1ff1" "10.0.0.7" (new_year + 25 * hour) (new_year + 25 * hour) true).
  - vm_compute. reflexivity.
  - vm_compute. discriminate.
Defined.

Lemma fresh_link_row db u h t1 t2 body :
  select_url (generate_short_url u) (urls db) = None ->
  fst (shorten_url db u h t1 t2) = Ok body ->
  exists r,
    select_url (generate_short_url u) (urls (snd (shorten_url db u h t1 t2))) = Some r /\
    original_url r = u /\ access_count r = 0 /\
    expiration_time r = strftime (t1 + h * 3600 * 1000000).
Proof.
  intros Hfree Hok.
  destruct (shorten_url_stores _ _ _ _ _ _ Hok) as (r & Hr & Hnew & _).
  exists r. split; [exact Hr | now apply Hnew].
Qed.

Lemma whole_seconds x :
  x - 999999 <= instant (strftime x) <= x.
Proof. unfold instant, strftime. Z.div_mod_to_equations. lia. Qed.

(** X5.  How long a new link lives.  A link shortened on an unused code for
    [h] hours at clock [t1] is due at [t1 + h] hours, and the due time is
    stored cut to whole seconds.  It resolves exactly while the stored time
    reads back and the clock is not past it.  When the due time is of year
    1000 or later, the link resolves at every clock up to one second before
    the due time and is Expired at every clock after it.  When the due time
    is of a year below 1000, every redirect raises ValueError: the link
    neither resolves nor answers Expired. *)
Theorem fresh_link_lifetime db u h t1 t2 body ip t_chk t_log :
  let due := t1 + h * 3600 * 1000000 in
  let db' := snd (shorten_url db u h t1 t2) in
  let answer up := fst (redirect_url db' (generate_short_url u) ip t_chk t_log up) in
  select_url (generate_short_url u) (urls db) = None ->
  fst (shorten_url db u h t1 t2) = Ok body ->
  (answer true = Ok u <-> live t_chk (strftime due)) /\
  (year_1000 <= strftime due ->
   (t_chk <= due - 999999 -> answer true = Ok u) /\
   (due < t_chk -> forall up, answer up = Expired)) /\
  (strftime due < year_1000 -> forall up, answer up = Uncaught ValueError).
Proof.
  intros due db' answer Hfree Hok. subst answer.
  destruct (fresh_link_row _ _ _ _ _ _ Hfree Hok) as (r & Hr & Hu & _ & He).
  fold db' in Hr. fold due in He.
  pose proof (whole_seconds due) as Hw.
  assert (Hlive : live t_chk (strftime due) ->
                  fst (redirect_url db' (generate_short_url u) ip t_chk t_log true) = Ok u).
  { intros Ht. rewrite <- He in Ht.
    rewrite (redirect_url_live _ _ _ _ _ _ Hr Ht). simpl. now rewrite Hu. }
  assert (Hdead : past t_chk (strftime due) ->
                  forall up, fst (redirect_url db' (generate_short_url u) ip t_chk t_log up)
                             = Expired).
  { intros Ht up. rewrite <- He in Ht.
    now rewrite (redirect_url_expired _ _ _ _ _ _ _ Hr Ht). }
  assert (Hraise : strftime due < year_1000 ->
                   forall up, fst (redirect_url db' (generate_short_url u) ip t_chk t_log up)
                              = Uncaught ValueError).
  { intros Ht up. rewrite <- He in Ht.
    now rewrite (redirect_url_unreadable _ _ _ _ _ _ _ Hr Ht). }
  split; [split|split].
  - intros Hresp. apply live_iff.
    destruct (Z.lt_ge_cases (strftime due) year_1000) as [Hy|Hy].
    { rewrite (Hraise Hy true) in Hresp. discriminate. }
    destruct (Z.le_gt_cases t_chk (instant (strftime due))) as [Hc|Hc]; [now split|].
    rewrite (Hdead (proj2 (past_iff _ _) (conj Hy Hc)) true) in Hresp. discriminate.
  - exact Hlive.
  - intros Hy. split.
    + intros Ht. apply Hlive. apply live_iff. split; [exact Hy | lia].
    + intros Ht. apply Hdead. apply past_iff. split; [exact Hy | lia].
  - exact Hraise.
Qed.

Lemma fresh_link_lifetime_witness :
  fst (redirect_url one_link "1f1ff1" "10.0.0.7"
         (new_year + 24 * hour - second) (new_year + 24 * hour) true) = Ok page_a /\
  fst (redirect_url one_link "1f1ff1" "10.0.0.7"
         (new_year + 24 * hour + 1) (new_year + 24 * hour + 1) true) = Expired /\
  fst (redirect_url long_ago_link "1f1ff1" "10.0.0.7" (new_year + hour) (new_year + hour) true)
  = Uncaught ValueError.
Proof.
  destruct (fresh_link_lifetime (init_db None) page_a 24 new_year new_year
              (short_ly "1f1ff1") "10.0.0.7" (new_year + 24 * hour - second)
              (new_year + 24 * hour)) as (_ & Hlive & _);
    [vm_compute; reflexivity | vm_compute; reflexivity |].
  destruct (fresh_link_lifetime (init_db None) page_a 24 new_year new_year
              (short_ly "1f1ff1") "10.0.0.7" (new_year + 24 * hour + 1)
              (new_year + 24 * hour + 1)) as (_ & Hdead & _);
    [vm_compute; reflexivity | vm_compute; reflexivity |].
  destruct (fresh_link_lifetime (init_db None) page_a (-9000000) new_year new_year
              (short_ly "1f1ff1") "10.0.0.7" (new_year + hour)
              (new_year + hour)) as (_ & _ & Hraise);
    [vm_compute; reflexivity | vm_compute; reflexivity |].
  split; [|split].
  - apply Hlive; [vm_compute; discriminate | vm_compute; discriminate].
  - apply Hdead; [vm_compute; discriminate | vm_compute; reflexivity].
  - apply Hraise. vm_compute. reflexivity.
Defined.

(** X6.  expiry_hours is not checked.  A link shortened on an unused code
    with zero or negative expiry_hours is stored all the same, and no
    redirect of it at a clock after the shortening answers the URL: it
    answers Expired when the due time is of year 1000 or later, and raises
    ValueError when the due time is of a year below 1000. *)
Theorem nonpositive_expiry_is_dead db u h t1 t2 body ip t_chk t_log up :
  let due := t1 + h * 3600 * 1000000 in
  let answer :=
    fst (redirect_url (snd (shorten_url db u h t1 t2)) (generate_short_url u)
           ip t_chk t_log up) in
  select_url (generate_short_url u) (urls db) = None ->
  fst (shorten_url db u h t1 t2) = Ok body ->
  h <= 0 ->
  t1 < t_chk ->
  (exists r, select_url (generate_short_url u) (urls (snd (shorten_url db u h t1 t2)))
             = Some r /\ original_url r = u) /\
  (year_1000 <= strftime due -> answer = Expired) /\
  (strftime due < year_1000 -> answer = Uncaught ValueError) /\
  (forall u', answer <> Ok u').
Proof.
  intros due answer Hfree Hok Hh Ht. subst answer.
  destruct (fresh_link_row _ _ _ _ _ _ Hfree Hok) as (r & Hr & Hu & _ & He).
  fold due in He.
  assert (Hexp : year_1000 <= strftime due ->
                 fst (redirect_url (snd (shorten_url db u h t1 t2)) (generate_short_url u)
                        ip t_chk t_log up) = Expired).
  { intros Hy. rewrite (redirect_url_expired _ _ _ _ _ _ _ Hr); [reflexivity|].
    rewrite He. apply past_iff. split; [exact Hy|].
    pose proof (whole_seconds due). subst due. lia. }
  assert (Hraise : strftime due < year_1000 ->
                   fst (redirect_url (snd (shorten_url db u h t1 t2)) (generate_short_url u)
                          ip t_chk t_log up) = Uncaught ValueError).
  { intros Hy. rewrite (redirect_url_unreadable _ _ _ _ _ _ _ Hr); [reflexivity|].
    now rewrite He. }
  split; [exists r; now split|]. split; [exact Hexp|]. split; [exact Hraise|].
  intros u'. destruct (Z.lt_ge_cases (strftime due) year_1000) as [Hy|Hy].
  - rewrite (Hraise Hy). discriminate.
  - rewrite (Hexp Hy). discriminate.
Qed.

Lemma nonpositive_expiry_is_dead_witness :
  fst (redirect_url (snd (shorten_url (init_db None) page_a (-1) new_year new_year))
         "1f1ff1" "10.0.0.7" (new_year + 1) (new_year + 1) true) = Expired /\
  fst (redirect_url long_ago_link "1f1ff1" "10.0.0.7" (new_year + 1) (new_year + 1) true)
  = Uncaught ValueError.
Proof.
  split.
  - apply (nonpositive_expiry_is_dead (init_db None) page_a (-1) new_year new_year
             (short_ly "1f1ff1") "10.0.0.7" (new_year + 1) (new_year + 1) true);
      try (vm_compute; reflexivity); vm_compute; discriminate.
  - apply (nonpositive_expiry_is_dead (init_db None) page_a (-9000000) new_year new_year
             (short_ly "1f1ff1") "10.0.0.7" (new_year + 1) (new_year + 1) true);
      try (vm_compute; reflexivity); vm_compute; discriminate.
Defined.

(** ** What shortening answers *)

(** X7.  [shorten_url] answers the short URL exactly when the day count of
    expiry_hours is within +-999999999 and the due time falls in years 1 to
    9999; otherwise an OverflowError escapes before the database is opened
    and nothing is written.  It never raises an HTTPException, and in
    particular not for a code that is already taken. *)
Theorem shorten_url_outcome db u h t1 t2 :
  let due := t1 + h * 3600 * 1000000 in
  let fits := -999999999 <= h / 24 <= 999999999 /\ 0 <= due < datetime_end in
  (fits <-> fst (shorten_url db u h t1 t2) = Ok (short_ly (generate_short_url u))) /\
  (~ fits -> shorten_url db u h t1 t2 = (Uncaught OverflowError, db)) /\
  (forall status detail, fst (shorten_url db u h t1 t2) <> HTTPException status detail).
Proof.
  intros due fits. subst fits due.
  unfold shorten_url, datetime_add, timedelta_hours.
  destruct (999999999 <? Z.abs (h / 24)) eqn:Ed.
  - apply Z.ltb_lt in Ed. split; [split|split].
    + intros [Hd _]. exfalso. lia.
    + discriminate.
    + reflexivity.
    + discriminate.
  - apply Z.ltb_ge in Ed.
    destruct ((0 <=? t1 + h * 3600 * 1000000) && (t1 + h * 3600 * 1000000 <? datetime_end))
      eqn:Er.
    + apply andb_true_iff in Er. destruct Er as [E1 E2].
      apply Z.leb_le in E1. apply Z.ltb_lt in E2. simpl.
      split; [split|split].
      * reflexivity.
      * intros _. split; lia.
      * intros Hn. exfalso. apply Hn. split; lia.
      * discriminate.
    + split; [split|split].
      * intros [_ [H1 H2]]. apply andb_false_iff in Er. destruct Er as [E|E].
        -- apply Z.leb_gt in E. lia.
        -- apply Z.ltb_ge in E. lia.
      * discriminate.
      * reflexivity.
      * discriminate.
Qed.

Lemma shorten_url_outcome_witness :
  fst (shorten_url one_link page_b 24 new_year new_year) = Ok (short_ly "1f1ff1") /\
  shorten_url one_link page_b 70000000 new_year new_year
  = (Uncaught OverflowError, one_link).
Proof.
  split.
  - apply (proj1 (proj1 (shorten_url_outcome one_link page_b 24 new_year new_year))).
    vm_compute. repeat split; discriminate.
  - apply (proj1 (proj2 (shorten_url_outcome one_link page_b 70000000 new_year new_year))).
    vm_compute. intros [_ [_ H]]. discriminate H.
Defined.

(** ** Reports *)

(** X8.  Create, resolve, report.  On a code that is unused and has no log
    entries, a shortening that returns followed by a redirect within the
    lifetime answers the URL, and the report then shows the URL, the short
    URL that was returned, an access_count of 1, the stored expiration time
    and exactly one log entry: the time and the address of that redirect. *)
Theorem create_resolve_report db u h t1 t2 body ip t_chk t_log :
  let code := generate_short_url u in
  let due := strftime (t1 + h * 3600 * 1000000) in
  let db1 := snd (shorten_url db u h t1 t2) in
  let r := redirect_url db1 code ip t_chk t_log true in
  select_url code (urls db) = None ->
  select_logs code (logs db) = [] ->
  fst (shorten_url db u h t1 t2) = Ok body ->
  live t_chk due ->
  fst r = Ok u /\
  get_analytics (snd r) code
  = Ok (mk_analytics u body 1 due [(strftime t_log, ip)]).
Proof.
  intros code due db1 r Hfree Hlogs Hok Ht.
  destruct (fresh_link_row _ _ _ _ _ _ Hfree Hok) as (row & Hr & Hu & Hz & He).
  fold db1 code in Hr. fold due in He.
  assert (Hlive : live t_chk (expiration_time row)) by now rewrite He.
  subst r. rewrite (redirect_url_live _ _ _ _ _ _ Hr Hlive). simpl.
  split; [now rewrite Hu|].
  unfold get_analytics. simpl.
  rewrite (select_url_update_same _ _ _ Hr). simpl.
  rewrite select_logs_insert, String.eqb_refl.
  destruct (shorten_url_urls db u h t1 t2) as (_ & _ & _ & El).
  fold db1 in El. rewrite El, Hlogs, Hu, Hz, He.
  apply shorten_url_response in Hok. now rewrite Hok.
Qed.

Lemma create_resolve_report_witness :
  get_analytics
    (snd (redirect_url one_link "1f1ff1" "10.0.0.7" (new_year + hour) (new_year + hour) true))
    "1f1ff1"
  = Ok (mk_analytics page_a "https://short.ly/1f1ff1" 1 63902908800
          [(63902826000, "10.0.0.7")]).
Proof.
  apply (create_resolve_report (init_db None) page_a 24 new_year new_year
           "https://short.ly/1f1ff1" "10.0.0.7" (new_year + hour) (new_year + hour)).
  - vm_compute. reflexivity.
  - vm_compute. reflexivity.
  - vm_compute. reflexivity.
  - apply is_expired_false. vm_compute. reflexivity.
Defined.

(** X9.  A report only moves with its own code.  The report of a code is
    the same before and after any request that is not a successful
    redirect of that very code: shortenings, analytics requests, failed
    redirects and successful redirects of other codes leave it alone. *)
Theorem report_unchanged_by_others db rq code a :
  get_analytics db code = Ok a ->
  (forall ip t_chk t_log up u,
     rq = GetRedirect code ip t_chk t_log up ->
     fst (redirect_url db code ip t_chk t_log up) <> Ok u) ->
  get_analytics (handle db rq) code = Ok a.
Proof.
  intros Ha Hother. unfold get_analytics in *.
  destruct (select_url code (urls db)) as [row|] eqn:Es; [|discriminate].
  assert (Hv : visits code (logged db rq) = []).
  { destruct rq as [u h t1 t2 | c ip t1 t2 up | c]; simpl; try reflexivity.
    destruct (fst (redirect_url db c ip t1 t2 up)) as [u| |] eqn:Er; try reflexivity.
    unfold visits. simpl. destruct (String.eqb c code) eqn:Eq; [|reflexivity].
    apply String.eqb_eq in Eq. subst c. exfalso. now apply (Hother ip t1 t2 up u). }
  rewrite (handle_select db rq code row Es).
  destruct (handle_logs db rq) as (new & El & M).
  unfold resolutions. rewrite Hv. simpl List.length. rewrite hit_0.
  rewrite El, select_logs_app, (select_logs_entries code new), M, Hv, app_nil_r.
  exact Ha.
Qed.

Lemma report_unchanged_by_others_witness :
  get_analytics
    (handle one_link (PostShorten page_b 24 (new_year + hour) (new_year + hour)))
    "1f1ff1"
  = Ok (mk_analytics page_a "https://short.ly/1f1ff1" 0 63902908800 []).
Proof.
  apply (report_unchanged_by_others one_link
           (PostShorten page_b 24 (new_year + hour) (new_year + hour)) "1f1ff1").
  - vm_compute. reflexivity.
  - intros ip t_chk t_log up u E. discriminate E.
Defined.

(** ** The shape of a code *)

Lemma length_list_ascii s : String.length s = List.length (list_ascii_of_string s).
Proof. induction s as [|c s IH]; simpl; [reflexivity | now rewrite IH]. Qed.

Lemma substring_firstn n s :
  list_ascii_of_string (substring 0 n s) = firstn n (list_ascii_of_string s).
Proof.
  revert s. induction n as [|n IH]; intros [|c s]; simpl; try reflexivity.
  now rewrite IH.
Qed.

Lemma forallb_firstn {A : Type} (p : A -> bool) n l :
  forallb p l = true -> forallb p (firstn n l) = true.
Proof.
  revert l. induction n as [|n IH]; intros [|x l]; simpl; try reflexivity.
  intros H. apply andb_true_iff in H. destruct H as [Hx Hl].
  now rewrite Hx, IH.
Qed.

Lemma is_hex_digit n : 0 <= n < 16 -> is_hex (MD5.hex_digit n) = true.
Proof.
  intros H. rewrite <- (Z2Nat.id n) by lia.
  assert (Hm : (Z.to_nat n < 16)%nat) by lia.
  generalize dependent (Z.to_nat n). intros m Hm.
  do 16 (destruct m as [|m]; [reflexivity|]). lia.
Qed.

Lemma hex_shape bs :
  Forall (fun b => 0 <= b < 256) bs ->
  String.length (MD5.hex bs) = (2 * List.length bs)%nat /\
  all_chars is_hex (MD5.hex bs) = true.
Proof.
  unfold all_chars. induction 1 as [|b bs Hb _ [IHl IHc]]; [now split|].
  simpl MD5.hex. simpl String.length. simpl list_ascii_of_string. simpl forallb.
  split; [rewrite IHl; simpl; lia|].
  rewrite IHc, !is_hex_digit; [reflexivity | |].
  - apply Z.mod_pos_bound. lia.
  - split; [apply Z.div_pos; lia | apply Z.div_lt_upper_bound; lia].
Qed.

Lemma le_bytes_shape n x :
  List.length (MD5.le_bytes n x) = n /\
  Forall (fun b => 0 <= b < 256) (MD5.le_bytes n x).
Proof.
  unfold MD5.le_bytes. split; [now rewrite length_map, length_seq|].
  apply Forall_forall. intros b Hin. apply in_map_iff in Hin.
  destruct Hin as (i & <- & _).
  change 0xff with (Z.ones 8). rewrite Z.land_ones by lia.
  apply Z.mod_pos_bound. reflexivity.
Qed.

Lemma digest_shape s :
  List.length (MD5.digest s) = 16%nat /\
  Forall (fun b => 0 <= b < 256) (MD5.digest s).
Proof.
  unfold MD5.digest.
  destruct (fold_left MD5.compress _ MD5.init) as [[[a b] c] d].
  split.
  - rewrite !length_app. now rewrite !(proj1 (le_bytes_shape 4 _)).
  - repeat (apply Forall_app; split); apply le_bytes_shape.
Qed.

(** X10.  Whatever the URL, the empty string included, its code is six
    characters long and made of the digits and the letters a to f only, so
    the short URL returned has 23 characters. *)
Theorem short_code_shape u :
  String.length (generate_short_url u) = 6%nat /\
  all_chars is_hex (generate_short_url u) = true /\
  String.length (short_ly (generate_short_url u)) = 23%nat.
Proof.
  destruct (digest_shape u) as [Hlen Hrange].
  destruct (hex_shape _ Hrange) as [Hl Hc]. rewrite Hlen in Hl.
  assert (H6 : String.length (generate_short_url u) = 6%nat).
  { unfold generate_short_url, MD5.hexdigest.
    rewrite length_list_ascii, substring_firstn, length_firstn, <- length_list_ascii, Hl.
    reflexivity. }
  split; [exact H6|]. split.
  - unfold generate_short_url, MD5.hexdigest, all_chars.
    rewrite substring_firstn. now apply forallb_firstn.
  - unfold short_ly. simpl. now rewrite H6.
Qed.

(** ** Rowids *)

Lemma max_of_seq a n :
  fold_right Z.max 0 (map Z.of_nat (seq a n))
  = match n with O => 0 | S n' => Z.of_nat (a + n') end.
Proof.
  revert a. induction n as [|n IH]; intros a; [reflexivity|].
  simpl seq. simpl map. simpl fold_right. rewrite IH.
  destruct n as [|n]; lia.
Qed.

Lemma next_rowid_numbered {A : Type} (rowid : A -> Z) t :
  numbered rowid t -> next_rowid rowid t = Z.of_nat (S (List.length t)).
Proof.
  unfold numbered, next_rowid. intros H.
  assert (E : fold_right (fun r m => Z.max (rowid r) m) 0 t
              = fold_right Z.max 0 (map rowid t)).
  { clear H. induction t as [|x t IH]; simpl; [reflexivity | now rewrite IH]. }
  rewrite E, H, max_of_seq. destruct (List.length t); lia.
Qed.

Lemma numbered_app {A : Type} (rowid : A -> Z) t x :
  numbered rowid t -> rowid x = next_rowid rowid t -> numbered rowid (t ++ [x]).
Proof.
  intros H Hx. rewrite (next_rowid_numbered rowid t H) in Hx.
  unfold numbered in *. rewrite map_app, length_app, H. simpl List.length.
  rewrite seq_app, map_app. simpl. now rewrite Hx.
Qed.

Lemma update_access_count_ids c t :
  map url_id (update_access_count c t) = map url_id t /\
  List.length (update_access_count c t) = List.length t.
Proof.
  unfold update_access_count. split; [|apply length_map].
  rewrite map_map. apply map_ext. intros r. now destruct (has_code c r).
Qed.

Lemma handle_numbered db rq :
  numbered url_id (urls db) /\ numbered log_id (logs db) ->
  numbered url_id (urls (handle db rq)) /\ numbered log_id (logs (handle db rq)).
Proof.
  intros [Hu Hl]. destruct rq as [u h t1 t2 | c ip t1 t2 up | c]; simpl; [| |now split].
  - destruct (shorten_url_cases db u h t1 t2) as [E | (_ & cr & ex & E)];
      rewrite E; [now split|]. simpl. split; [|exact Hl].
    now apply numbered_app.
  - destruct (redirect_url_cases db c ip t1 t2 up) as [E | (row & _ & _ & E)];
      rewrite E; [now split|]. simpl. split.
    + unfold numbered. destruct (update_access_count_ids c (urls db)) as [-> ->]. exact Hu.
    + now apply numbered_app.
Qed.

(** X11.  Starting from empty tables, the ids of both tables are 1, 2, 3,
    ... in table order after any sequence of requests: ids are never
    reused or reordered, so the order in which a table lists its rows is
    the order in which they were inserted. *)
Theorem rowids_count_up rqs :
  numbered url_id (urls (run (init_db None) rqs)) /\
  numbered log_id (logs (run (init_db None) rqs)).
Proof.
  assert (H : forall db, numbered url_id (urls db) /\ numbered log_id (logs db) ->
              numbered url_id (urls (run db rqs)) /\ numbered log_id (logs (run db rqs))).
  { induction rqs as [|rq rqs IH]; intros db Hn; [exact Hn|].
    unfold run in *. simpl. apply IH. now apply handle_numbered. }
  apply H. now split.
Qed.

(** ** A code keeps its URL *)

Lemma redirect_url_Ok_inv db code ip t_chk t_log up u :
  fst (redirect_url db code ip t_chk t_log up) = Ok u ->
  exists row, select_url code (urls db) = Some row /\ original_url row = u.
Proof.
  unfold redirect_url.
  destruct (select_url code (urls db)) as [row|]; [|discriminate].
  destruct (is_expired t_chk (expiration_time row)) as [[|]|]; try discriminate.
  destruct up; [|discriminate].
  simpl. intros H. injection H as <-. now exists row.
Qed.

(** X13.  A code never changes hands.  If a redirect of a code has answered
    a URL, then after any sequence of requests a redirect of that code that
    answers a URL answers the same one: later shortenings, of any URL with
    the same digest prefix, cannot rebind it. *)
Theorem code_never_rebound db rqs code ip t_chk t_log up u ip' t_chk' t_log' up' u' :
  fst (redirect_url db code ip t_chk t_log up) = Ok u ->
  fst (redirect_url (run db rqs) code ip' t_chk' t_log' up') = Ok u' ->
  u' = u.
Proof.
  intros H H'.
  apply redirect_url_Ok_inv in H. destruct H as (row & Hrow & <-).
  apply redirect_url_Ok_inv in H'. destruct H' as (row' & Hrow' & <-).
  rewrite (run_select db rqs code row Hrow) in Hrow'.
  injection Hrow' as <-. reflexivity.
Qed.

Lemma code_never_rebound_witness :
  fst (redirect_url one_link "1f1ff1" "10.0.0.7" (new_year + hour) (new_year + hour) true)
  = Ok page_a /\
  fst (redirect_url
         (run one_link [PostShorten page_b 48 (new_year + hour) (new_year + hour)])
         "1f1ff1" "10.0.0.8" (new_year + 2 * hour) (new_year + 2 * hour) true)
  = Ok page_a /\
  page_a = page_a.
Proof.
  assert (H1 : fst (redirect_url one_link "1f1ff1" "10.0.0.7" (new_year + hour)
                      (new_year + hour) true) = Ok page_a)
    by (vm_compute; reflexivity).
  assert (H2 : fst (redirect_url
                      (run one_link [PostShorten page_b 48 (new_year + hour) (new_year + hour)])
                      "1f1ff1" "10.0.0.8" (new_year + 2 * hour) (new_year + 2 * hour) true)
               = Ok page_a)
    by (vm_compute; reflexivity).
  split; [exact H1|]. split; [exact H2|].
  exact (code_never_rebound _ _ _ _ _ _ _ _ _ _ _ _ _ H1 H2).
Defined.
